(** * Goalstone front end: session and authenticated-request layer

    A shallow embedding of
    - the module imported as ['../services/api'] (the axios instance, its
      two interceptors, the token helpers and [authAPI]; lines 130-407 of
      [Frontend/src/services/financeApi.js]),
    - [Frontend/src/hooks/useAuth.js] (the [AuthProvider] state and its
      [initAuth], [login] and [logout] operations),
    - [ProtectedRoute] (lines 361-378 of
      [Frontend/src/components/StatsCard.jsx]) and the login-prompt effect
      of [Home] (the page imported as ['./pages/Home']),
    - [authAPI.register], [register] of useAuth.js and the [onSubmit] of
      the page imported as ['./pages/Register'],
    - the click and submit handlers of [Home],
    - [generateInsights] and [generateGoals] of
      [Frontend/src/services/financeApi.js].

    The browser is explicit state: [localStorage] is a finite map from
    keys to strings, every assignment to [window.location.href] and every
    toast is appended to a log, and every request that leaves the axios
    instance is logged with the [Authorization] header it carries.  An
    [async] function is split at its single [await] into the part that
    runs before the request is sent ([_send], [_begin]) and the part that
    runs when the reply arrives ([_settle]); the latter takes the state
    as it is at that later time.  Calls to [console] are not modelled. *)

From Stdlib Require Import ZArith Bool.
From Stdlib Require PrimFloat.
From stdpp Require Import gmap strings list.

(** ** JavaScript helpers *)

(** [String.prototype.includes]. *)
Fixpoint includes (s sub : string) : bool :=
  String.prefix sub s ||
  match s with
  | EmptyString => false
  | String _ s' => includes s' sub
  end.

(** Truthiness of a value that is a string, [null] or [undefined]. *)
Definition truthy (v : option string) : bool :=
  match v with
  | Some s => negb (String.eqb s EmptyString)
  | None => false
  end.

(** [a || b] on such values. *)
Definition js_or (v : option string) (d : string) : string :=
  match v with
  | Some s => if String.eqb s EmptyString then d else s
  | None => d
  end.

(** ** Errors and replies *)

(** [error.response]: the status and, from [error.response.data], the
    [detail] field. *)
Record ErrResponse := {
  status : Z;
  detail : option string
}.

(** The error axios rejects with: [error.config?.url] and
    [error.response]; a connectivity failure has no [response]. *)
Record AxiosError := {
  config_url : option string;
  response : option ErrResponse
}.

(** What a [catch] can receive: an axios error or [new Error(msg)]. *)
Inductive JsError :=
| HttpError (e : AxiosError)
| PlainError (msg : string).

(** The outcome of an [await]ed call. *)
Inductive Result (A : Type) :=
| Returned (a : A)
| Thrown (e : JsError).
Arguments Returned {A} a.
Arguments Thrown {A} e.

(** What the network answers to one request: a 2xx reply with its
    [data], or a failure, with the server's response when there is one. *)
Inductive Reply (D : Type) :=
| Fulfilled (data : D)
| Failed (resp : option ErrResponse).
Arguments Fulfilled {D} data.
Arguments Failed {D} resp.

(** ** The browser *)

Inductive Toast :=
| toast_error (msg : string)
| toast_success (msg : string).

Record Request := {
  method : string;
  url : string;
  authorization : option string
}.

Record Browser := {
  localStorage : gmap string string;
  (** the values assigned to [window.location.href], oldest first *)
  location_href : list string;
  (** the toasts shown, oldest first *)
  toasts : list Toast;
  (** the requests sent through the axios instance, oldest first *)
  sent : list Request
}.

Definition with_storage (f : gmap string string → gmap string string)
    (b : Browser) : Browser :=
  {| localStorage := f (localStorage b);
     location_href := location_href b;
     toasts := toasts b;
     sent := sent b |}.

Definition getItem (k : string) (b : Browser) : option string :=
  localStorage b !! k.
Definition setItem (k v : string) : Browser → Browser :=
  with_storage (insert k v).
Definition removeItem (k : string) : Browser → Browser :=
  with_storage (delete k).

Definition assign_location (href : string) (b : Browser) : Browser :=
  {| localStorage := localStorage b;
     location_href := location_href b ++ [href];
     toasts := toasts b;
     sent := sent b |}.

Definition toast (t : Toast) (b : Browser) : Browser :=
  {| localStorage := localStorage b;
     location_href := location_href b;
     toasts := toasts b ++ [t];
     sent := sent b |}.

Definition send (r : Request) (b : Browser) : Browser :=
  {| localStorage := localStorage b;
     location_href := location_href b;
     toasts := toasts b;
     sent := sent b ++ [r] |}.

(** ** services/api *)

Module Api.

(** Token management. *)
Definition getToken (b : Browser) : option string := getItem "token" b.
Definition setToken (token : string) : Browser → Browser := setItem "token" token.
Definition removeToken : Browser → Browser := removeItem "token".

(** The request interceptor: the bearer header is added when the stored
    token is truthy. *)
Definition requestInterceptor (m u : string) (b : Browser) : Request :=
  {| method := m;
     url := u;
     authorization :=
       if truthy (getToken b)
       then Some ("Bearer " +:+ default EmptyString (getToken b))
       else None |}.

(** [error.config?.url?.includes(sub)]; [undefined] is falsy. *)
Definition url_includes (e : AxiosError) (sub : string) : bool :=
  match config_url e with
  | Some u => includes u sub
  | None => false
  end.

(** The response interceptor's error handler.  It always ends in
    [Promise.reject(error)], so only the state change is returned. *)
Definition responseRejected (e : AxiosError) (b : Browser) : Browser :=
  match response e with
  | Some r =>
      if (status r =? 401)%Z then
        if negb (url_includes e "/auth/login")
           && negb (url_includes e "/agents/career")
        then toast (toast_error "Session expired. Please login again.")
               (assign_location "/" (removeToken b))
        else b
      else if (500 <=? status r)%Z then
        toast (toast_error "Server error. Please try again later.") b
      else b
  | None => b
  end.

(** [api.get(u)] and [api.post(u, _)] up to the point where the request
    is on the wire. *)
Definition api_send (m u : string) (b : Browser) : Browser :=
  send (requestInterceptor m u b) b.

(** The promise of [api.get(u)] or [api.post(u, _)] settles: a 2xx reply
    passes the response interceptor unchanged, a failure goes through
    [responseRejected] and is rejected with the same error. *)
Definition api_settle {D} (u : string) (reply : Reply D) (b : Browser)
    : Browser * Result D :=
  match reply with
  | Fulfilled data => (b, Returned data)
  | Failed resp =>
      let e := {| config_url := Some u; response := resp |} in
      (responseRejected e b, Thrown (HttpError e))
  end.

(** *** authAPI

    [User] is the JSON value the server sends for a user and
    [JSON_stringify] the browser's [JSON.stringify] on it ([None] stands
    for [undefined]); both are left abstract. *)
Section AuthAPI.
Context {User : Type} (JSON_stringify : option User → string).

(** [response.data] of [POST /auth/login]. *)
Record LoginData := {
  access_token : option string;
  login_user : option User
}.

(** [authAPI.login] up to [await api.post('/auth/login', credentials)]. *)
Definition authAPI_login_send (b : Browser) : Browser :=
  api_send "POST" "/auth/login" b.

(** [authAPI.login] from the reply on. *)
Definition authAPI_login_settle (reply : Reply LoginData) (b : Browser)
    : Browser * Result LoginData :=
  match api_settle "/auth/login" reply b with
  | (b1, Returned data) =>
      (if truthy (access_token data)
       then setItem "user" (JSON_stringify (login_user data))
              (setToken (default EmptyString (access_token data)) b1)
       else b1,
       Returned data)
  | (b1, Thrown e) => (b1, Thrown e)
  end.

(** [authAPI.logout]. *)
Definition authAPI_logout (b : Browser) : Browser :=
  removeItem "user" (removeToken b).

(** [authAPI.getCurrentUser] up to [await api.get('/auth/me')]: without
    a truthy token it throws before any request is made. *)
Definition authAPI_getCurrentUser_send (b : Browser) : Browser * Result unit :=
  if truthy (getToken b)
  then (api_send "GET" "/auth/me" b, Returned tt)
  else (b, Thrown (PlainError "No token found")).

(** [authAPI.getCurrentUser] from the reply on: every failure of the
    request removes both stored values and is replaced by a new error. *)
Definition authAPI_getCurrentUser_settle (reply : Reply (option User)) (b : Browser)
    : Browser * Result (option User) :=
  match api_settle "/auth/me" reply b with
  | (b1, Returned data) => (b1, Returned data)
  | (b1, Thrown _) =>
      (removeItem "user" (removeToken b1), Thrown (PlainError "Invalid session"))
  end.

(** The other members of [agentAPI], [dataAPI], [systemAPI] and
    [profileAPI] that go through the axios instance are all
    [const response = await api.m(u, ...); return response.data]. *)
Definition call_send (m u : string) (b : Browser) : Browser :=
  api_send m u b.
Definition call_settle {D} (u : string) (reply : Reply D) (b : Browser)
    : Browser * Result D :=
  api_settle u reply b.

End AuthAPI.

End Api.

(** ** useAuth.js *)

Module UseAuth.
Import Api.

Section AuthProvider.
Context {User : Type} (JSON_stringify : option User → string).

(** The three [useState] cells of [AuthProvider]. *)
Record AuthState := {
  user : option User;
  loading : bool;
  isAuthenticated : bool
}.

(** A page: the browser and the mounted [AuthProvider]. *)
Record Page := {
  browser : Browser;
  auth : AuthState
}.

Definition setUser (u : option User) (p : Page) : Page :=
  {| browser := browser p;
     auth := {| user := u;
                loading := loading (auth p);
                isAuthenticated := isAuthenticated (auth p) |} |}.
Definition setLoading (l : bool) (p : Page) : Page :=
  {| browser := browser p;
     auth := {| user := user (auth p);
                loading := l;
                isAuthenticated := isAuthenticated (auth p) |} |}.
Definition setIsAuthenticated (a : bool) (p : Page) : Page :=
  {| browser := browser p;
     auth := {| user := user (auth p);
                loading := loading (auth p);
                isAuthenticated := a |} |}.

(** Code of services/api or a toast run from the provider. *)
Definition on_browser (f : Browser → Browser) (p : Page) : Page :=
  {| browser := f (browser p); auth := auth p |}.

(** A page load: the module state is fresh, [localStorage] is what the
    previous page left. *)
Definition load (storage : gmap string string) : Page :=
  {| browser := {| localStorage := storage;
                   location_href := [];
                   toasts := [];
                   sent := [] |};
     auth := {| user := None; loading := true; isAuthenticated := false |} |}.

(** [initAuth] up to [await authAPI.getCurrentUser()]; the flag tells
    whether it is now waiting for the reply.  When it is not, it has run
    to its end. *)
Definition initAuth_begin (p : Page) : Page * bool :=
  if truthy (getToken (browser p)) then
    match authAPI_getCurrentUser_send (browser p) with
    | (b1, Returned _) => (on_browser (λ _, b1) p, true)
    | (b1, Thrown _) =>
        (setLoading false (on_browser authAPI_logout (on_browser (λ _, b1) p)), false)
    end
  else (setLoading false p, false).

(** [initAuth] from the reply on. *)
Definition initAuth_settle (reply : Reply (option User)) (p : Page) : Page :=
  match authAPI_getCurrentUser_settle reply (browser p) with
  | (b1, Returned userData) =>
      setLoading false
        (setIsAuthenticated true (setUser userData (on_browser (λ _, b1) p)))
  | (b1, Thrown _) =>
      setLoading false (on_browser authAPI_logout (on_browser (λ _, b1) p))
  end.

(** [login] up to [await authAPI.login(credentials)]. *)
Definition login_begin (p : Page) : Page :=
  on_browser authAPI_login_send (setLoading true p).

(** [error.response?.data?.detail || 'Login failed']. *)
Definition errorMessage (e : JsError) : string :=
  match e with
  | HttpError {| response := Some r |} => js_or (detail r) "Login failed"
  | _ => "Login failed"
  end.

(** [login] from the reply on; what it returns or throws goes to the
    form that called it. *)
Definition login_settle (reply : Reply LoginData) (p : Page)
    : Page * Result LoginData :=
  match authAPI_login_settle JSON_stringify reply (browser p) with
  | (b1, Returned response) =>
      (setLoading false
         (on_browser (toast (toast_success "Login successful!"))
            (setIsAuthenticated true
               (setUser (login_user response) (on_browser (λ _, b1) p)))),
       Returned response)
  | (b1, Thrown error) =>
      let p1 := on_browser (λ _, b1) p in
      let p2 :=
        if bool_decide (errorMessage error ∈ ["Email not found"; "Incorrect password"])
        then p1
        else on_browser (toast (toast_error (errorMessage error))) p1 in
      (setLoading false p2, Thrown error)
  end.

(** [logout]. *)
Definition logout (p : Page) : Page :=
  on_browser (toast (toast_success "Logged out successfully"))
    (setIsAuthenticated false (setUser None (on_browser authAPI_logout p))).

End AuthProvider.

End UseAuth.

(** ** ProtectedRoute.jsx and the login prompt of Home.jsx *)

Module Guard.
Import UseAuth.

(** The [state] object a navigation carries; an absent field is [false]. *)
Record LocationState := {
  requiresLogin : bool;
  fromProtectedRoute : bool
}.

(** What [ProtectedRoute] returns. *)
Inductive Rendered (C : Type) :=
| Spinner
| Children (children : C)
| Navigate (to : string) (state : LocationState) (replace : bool).
Arguments Spinner {C}.
Arguments Children {C} children.
Arguments Navigate {C} to state replace.

Definition ProtectedRoute {User C} (a : @AuthState User) (children : C)
    : Rendered C :=
  if loading a then Spinner
  else if isAuthenticated a then Children children
  else Navigate "/"
         {| requiresLogin := true; fromProtectedRoute := true |} true.

(** The history entry the entry view is shown for.  [location_state] is
    what [useLocation().state] gives the mounted view; [history_state]
    is the state kept by the browser in [window.history] for this entry,
    from which the router takes [location.state] when the page is
    loaded again. *)
Record Entry := {
  location_state : option LocationState;
  history_state : option LocationState
}.

(** The router follows [<Navigate to state replace />]. *)
Definition follow (state : LocationState) : Entry :=
  {| location_state := Some state; history_state := Some state |}.

(** An ordinary visit of the entry point. *)
Definition plain_visit : Entry :=
  {| location_state := None; history_state := None |}.

(** The page is loaded again on the same history entry. *)
Definition reload (e : Entry) : Entry :=
  {| location_state := history_state e; history_state := history_state e |}.

(** The [useState] cells of [Home] that the prompt uses. *)
Record HomeState := {
  showLoginPrompt : bool;
  selectedFeature : string;
  loginError : string
}.

(** [Home] as it is mounted. *)
Definition mount : HomeState :=
  {| showLoginPrompt := false;
     selectedFeature := EmptyString;
     loginError := EmptyString |}.

(** [location.state?.f]. *)
Definition field (f : LocationState → bool) (s : option LocationState) : bool :=
  match s with
  | Some st => f st
  | None => false
  end.

(** The effect of [Home] on [location.state]; the focus it sets after a
    delay is not modelled.  [window.history.replaceState({}, _)] leaves
    the entry without a state. *)
Definition Home_effect (e : Entry) (h : HomeState) : Entry * HomeState :=
  let h1 :=
    if field requiresLogin (location_state e)
       && field fromProtectedRoute (location_state e)
    then {| showLoginPrompt := true;
            selectedFeature := "Dashboard";
            loginError := loginError h |}
    else h in
  let e1 :=
    if field requiresLogin (location_state e)
    then {| location_state := location_state e; history_state := None |}
    else e in
  (e1, h1).

(** The [catch] of [onSubmit]: the message goes to the form. *)
Definition onSubmit_catch (error : JsError) (h : HomeState) : HomeState :=
  {| showLoginPrompt := showLoginPrompt h;
     selectedFeature := selectedFeature h;
     loginError := errorMessage error |}.

(** Both sign-in buttons carry [disabled={loading}]. *)
Definition signIn_disabled {User} (a : @AuthState User) : bool := loading a.

End Guard.

(** ** The event loop

    The handlers above are run one at a time, in the order in which the
    events arrive. *)

Module EventLoop.
Import Api UseAuth Guard.

Section Loop.
Context {User : Type} (JSON_stringify : option User → string).

Record Config := {
  page : @Page User;
  (** [initAuth] waits for the reply to [GET /auth/me] *)
  me_pending : bool;
  (** the number of [login] calls that wait for their reply *)
  login_pending : nat
}.

Inductive Event :=
| MeReply (r : Reply (option User))
| Submit
| LoginReply (r : Reply (@LoginData User))
| Logout
| CallFailed (u : string) (resp : option ErrResponse)
| PageLoad.

(** The page is loaded and [AuthProvider]'s effect runs [initAuth]. *)
Definition start (storage : gmap string string) : Config :=
  let '(p, waits) := initAuth_begin (load storage) in
  {| page := p; me_pending := waits; login_pending := 0 |}.

(** One event.  A reply needs a request that waits for it, the form can
    be submitted when its button is enabled; a failed call is a call of a
    view to some other member of api.js. *)
Definition step (ev : Event) (c : Config) : option Config :=
  match ev with
  | MeReply r =>
      if me_pending c
      then Some {| page := initAuth_settle r (page c);
                   me_pending := false;
                   login_pending := login_pending c |}
      else None
  | Submit =>
      if signIn_disabled (auth (page c)) then None
      else Some {| page := login_begin (page c);
                   me_pending := me_pending c;
                   login_pending := S (login_pending c) |}
  | LoginReply r =>
      match login_pending c with
      | O => None
      | S n => Some {| page := (login_settle JSON_stringify r (page c)).1;
                       me_pending := me_pending c;
                       login_pending := n |}
      end
  | Logout =>
      Some {| page := logout (page c);
              me_pending := me_pending c;
              login_pending := login_pending c |}
  | CallFailed u resp =>
      Some {| page := on_browser
                        (λ b, (call_settle (D:=unit) u (Failed resp) b).1)
                        (page c);
              me_pending := me_pending c;
              login_pending := login_pending c |}
  | PageLoad => Some (start (localStorage (browser (page c))))
  end.

Fixpoint run (evs : list Event) (c : Config) : option Config :=
  match evs with
  | [] => Some c
  | ev :: evs' =>
      match step ev c with
      | Some c' => run evs' c'
      | None => None
      end
  end.

(** The states the page can be in. *)
Definition reachable (c : Config) : Prop :=
  ∃ storage evs, run evs (start storage) = Some c.

(** The provider used by one caller at a time: each operation runs to
    its end before the next one starts. *)
Inductive Op :=
| DoLogin (r : Reply (@LoginData User))
| DoLogout.

Definition run_op (o : Op) (p : Page) : Page :=
  match o with
  | DoLogin r => (login_settle JSON_stringify r (login_begin p)).1
  | DoLogout => logout p
  end.

Definition run_ops (os : list Op) (p : Page) : Page :=
  foldl (λ p o, run_op o p) p os.

(** [initAuth] from start to end, given the reply it would get. *)
Definition startup (reply : Reply (option User)) (storage : gmap string string)
    : Page :=
  let '(p, waits) := initAuth_begin (load storage) in
  if waits then initAuth_settle reply p else p.

End Loop.

End EventLoop.

(** ** Derived notions and concrete runs *)

Module Scenario.
Import Api UseAuth Guard EventLoop.

(** The test of the first branch of the response interceptor: a 401 on a
    request whose URL names neither the login nor the career endpoint. *)
Definition session_expired (e : AxiosError) : bool :=
  match response e with
  | Some r =>
      (status r =? 401)%Z
      && negb (url_includes e "/auth/login")
      && negb (url_includes e "/agents/career")
  | None => false
  end.

(** Several failed requests reach the interceptor one after the other. *)
Definition rejected_all (es : list AxiosError) (b : Browser) : Browser :=
  foldl (λ b e, responseRejected e b) b es.

Definition failure (u : string) (code : Z) : AxiosError :=
  {| config_url := Some u;
     response := Some {| status := code; detail := None |} |}.

(** A browser that holds the two values a login stores. *)
Definition signed_in : Browser :=
  {| localStorage := {[ "token" := "tok"; "user" := "{}" ]};
     location_href := [];
     toasts := [];
     sent := [] |}.

(** Users as the text the server sent for them. *)
Definition stringify (u : option string) : string := default "undefined" u.

Definition good_login (u : string) : Reply (@LoginData string) :=
  Fulfilled {| access_token := Some "tok"; login_user := Some u |}.

Definition wrong_password : Reply (@LoginData string) :=
  Failed (Some {| status := 401; detail := Some "Incorrect password" |}).

(** A fulfilled login whose data has no truthy [access_token] stores
    nothing; [carries_token] excludes it. *)
Definition carries_token {User} (o : @Op User) : bool :=
  match o with
  | DoLogin (Fulfilled d) => truthy (access_token d)
  | _ => true
  end.

(** The flag agrees with the store, and nothing is being waited for. *)
Definition agrees {User} (p : @Page User) : Prop :=
  isAuthenticated (auth p) = truthy (getToken (browser p))
  ∧ loading (auth p) = false.

(** While [initAuth] waits, the page is loading and no login waits. *)
Definition validation_alone {User} (c : @Config User) : Prop :=
  me_pending c = true →
  loading (auth (page c)) = true ∧ login_pending c = 0.

(** The two stored values are there together or not at all. *)
Definition paired (b : Browser) : Prop :=
  is_Some (getItem "token" b) ↔ is_Some (getItem "user" b).

Definition fulfilled {D} (r : Reply D) : bool :=
  match r with
  | Fulfilled _ => true
  | Failed _ => false
  end.

(** A login from a fresh browser, then the page is loaded again. *)
Definition login_then_reload : list (@Event string) :=
  [Submit; LoginReply (good_login "ann"); PageLoad].

(** A login from a fresh browser, then a view's request gets a 401. *)
Definition login_then_401 : list (@Event string) :=
  [Submit; LoginReply (good_login "ann");
   CallFailed "/data/progress" (Some {| status := 401; detail := None |})].

(** The page is loaded with a token stored, and [login] is called while
    [initAuth] still waits for its reply. *)
Definition both_in_flight : @Page string :=
  login_begin (initAuth_begin (load {[ "token" := "old" ]})).1.

End Scenario.

(** ** Registration

    [authAPI.register], [register] of useAuth.js and the [onSubmit] of
    the page imported as ['./pages/Register'], which calls
    [authAPI.register] itself.  [Created] is the [response.data] of
    [POST /auth/register]. *)

Module Registration.
Import Api UseAuth.

Section Register.
Context {User Created : Type}.

(** [authAPI.register] up to [await api.post('/auth/register', userData)]. *)
Definition authAPI_register_send (b : Browser) : Browser :=
  api_send "POST" "/auth/register" b.

(** [authAPI.register] from the reply on: the data is returned, an error
    is thrown again. *)
Definition authAPI_register_settle (reply : Reply Created) (b : Browser)
    : Browser * Result Created :=
  match api_settle "/auth/register" reply b with
  | (b1, Returned data) => (b1, Returned data)
  | (b1, Thrown e) => (b1, Thrown e)
  end.

(** [register] of the provider up to its [await]. *)
Definition register_begin (p : @Page User) : @Page User :=
  on_browser authAPI_register_send (setLoading true p).

(** [error.response?.data?.detail || d]. *)
Definition detail_or (d : string) (e : JsError) : string :=
  match e with
  | HttpError {| response := Some r |} => js_or (detail r) d
  | _ => d
  end.

(** [register] of the provider from the reply on. *)
Definition register_settle (reply : Reply Created) (p : @Page User)
    : @Page User * Result Created :=
  match authAPI_register_settle reply (browser p) with
  | (b1, Returned response) =>
      (setLoading false
         (on_browser
            (toast (toast_success "Registration successful! Please sign in."))
            (on_browser (λ _, b1) p)),
       Returned response)
  | (b1, Thrown error) =>
      (setLoading false
         (on_browser
            (toast (toast_error (detail_or "Registration failed" error)))
            (on_browser (λ _, b1) p)),
       Thrown error)
  end.

End Register.

End Registration.

Module RegisterPage.
Import Api Registration.

(** The [useState] cells of [Register] that [onSubmit] writes. *)
Record RegisterState := {
  loading : bool;
  success : bool;
  error : string
}.

(** The fields of the form that [onSubmit] reads. *)
Record FormData := {
  name : string;
  email : string;
  password : string;
  confirmPassword : string
}.

Definition mount : RegisterState :=
  {| loading := false; success := false; error := EmptyString |}.

(** [onSubmit] up to [await authAPI.register(...)]; the flag tells
    whether it is now waiting for the reply.  Passwords that differ end
    it before anything is sent. *)
Definition onSubmit_begin (data : FormData) (s : RegisterState) (b : Browser)
    : RegisterState * Browser * bool :=
  if negb (String.eqb (password data) (confirmPassword data))
  then ({| loading := loading s;
           success := success s;
           error := "Passwords do not match" |}, b, false)
  else ({| loading := true; success := success s; error := EmptyString |},
        authAPI_register_send b, true).

(** [onSubmit] from the reply on.  The last component is the call
    [setTimeout(() => navigate(to), delay)] it makes, as [(delay, to)]. *)
Definition onSubmit_settle {Created} (reply : Reply Created)
    (s : RegisterState) (b : Browser)
    : RegisterState * Browser * option (Z * string) :=
  match authAPI_register_settle reply b with
  | (b1, Returned _) =>
      ({| loading := false; success := true; error := error s |},
       b1, Some (1500%Z, "/"))
  | (b1, Thrown err) =>
      ({| loading := false;
          success := success s;
          error := detail_or "Registration failed. Please try again." err |},
       b1, None)
  end.

End RegisterPage.

(** ** The handlers of Home *)

Module HomePage.
Import Api UseAuth Guard.

(** An entry of [features]; the icon and the description are not
    modelled. *)
Record Feature := {
  title : string;
  route : string
}.

Definition features : list Feature :=
  [ {| title := "AI-Powered Insights"; route := "/agents" |};
    {| title := "Goal Acceleration"; route := "/milestones" |};
    {| title := "Progress Analytics"; route := "/progress" |} ].

(** The prompt is opened for [feature]. *)
Definition open_prompt (feature : string) : HomeState :=
  {| showLoginPrompt := true;
     selectedFeature := feature;
     loginError := EmptyString |}.

Definition setShowLoginPrompt (v : bool) (h : HomeState) : HomeState :=
  {| showLoginPrompt := v;
     selectedFeature := selectedFeature h;
     loginError := loginError h |}.

Definition setLoginError (msg : string) (h : HomeState) : HomeState :=
  {| showLoginPrompt := showLoginPrompt h;
     selectedFeature := selectedFeature h;
     loginError := msg |}.

(** [handleFeatureClick]: the new state and the route given to
    [navigate], if any. *)
Definition handleFeatureClick {User} (a : @AuthState User) (feature : Feature)
    (h : HomeState) : HomeState * option string :=
  if isAuthenticated a then (h, Some (route feature))
  else (open_prompt (title feature), None).

(** [handleDashboardClick] on a [Link] to ['/dashboard']: when the click
    is not prevented the link navigates. *)
Definition handleDashboardClick {User} (a : @AuthState User) (h : HomeState)
    : HomeState * option string :=
  if negb (isAuthenticated a) then (open_prompt "Dashboard", None)
  else (h, Some "/dashboard").

(** [onSubmit] up to [await login(data)]. *)
Definition onSubmit_begin (h : HomeState) : HomeState := setLoginError EmptyString h.

(** [onSubmit] from the outcome of [login] on.  [seen] holds the values
    of [showLoginPrompt] and [selectedFeature] in the render whose
    [onSubmit] was called, [h] is the state at the time of the outcome. *)
Definition onSubmit_settle {D} (seen : HomeState) (outcome : Result D)
    (h : HomeState) : HomeState * option string :=
  match outcome with
  | Returned _ =>
      if showLoginPrompt seen then
        let h1 := setShowLoginPrompt false h in
        match List.find (λ f, String.eqb (title f) (selectedFeature seen)) features with
        | Some feature => (h1, Some (route feature))
        | None =>
            if String.eqb (selectedFeature seen) "Dashboard"
            then (h1, Some "/dashboard")
            else (h1, None)
        end
      else (h, Some "/dashboard")
  | Thrown error => (onSubmit_catch error h, None)
  end.

(** What can happen to a mounted [Home]: its effect runs for an entry, a
    feature card (by its index in [features]) or a dashboard link is
    clicked, the prompt is dismissed (its Cancel button and its Sign up
    link), a login is submitted or fails. *)
Inductive HomeEvent :=
| Effect (e : Entry)
| FeatureClick (authenticated : bool) (i : nat)
| DashboardClick (authenticated : bool)
| Dismiss
| SubmitForm
| LoginFailed (error : JsError).

Definition as_auth (authenticated : bool) : @AuthState unit :=
  {| user := None; loading := false; isAuthenticated := authenticated |}.

Definition home_step (ev : HomeEvent) (h : HomeState) : option HomeState :=
  match ev with
  | Effect e => Some (Home_effect e h).2
  | FeatureClick authenticated i =>
      match features !! i with
      | Some feature => Some (handleFeatureClick (as_auth authenticated) feature h).1
      | None => None
      end
  | DashboardClick authenticated =>
      Some (handleDashboardClick (as_auth authenticated) h).1
  | Dismiss => Some (setShowLoginPrompt false h)
  | SubmitForm => Some (onSubmit_begin h)
  | LoginFailed error => Some (onSubmit_catch error h)
  end.

Fixpoint home_run (evs : list HomeEvent) (h : HomeState) : option HomeState :=
  match evs with
  | [] => Some h
  | ev :: evs' =>
      match home_step ev h with
      | Some h' => home_run evs' h'
      | None => None
      end
  end.

(** The routes [onSubmit] can give to [navigate]. *)
Definition targets : list string :=
  "/dashboard" :: map route features.

End HomePage.

(** ** The finance plan texts

    [generateInsights] and [generateGoals] of
    [Frontend/src/services/financeApi.js].  Numbers are binary64 floats;
    [Number_toString] is the conversion a template literal applies to a
    number and is left abstract. *)

Module Finance.
Import PrimFloat.

Record UserData := {
  monthly_income : float;
  fixed_expenses : float;
  variable_expenses : float;
  existing_savings : float;
  (** [None] stands for [undefined] *)
  financial_priority : option string
}.

(** [v === s] for a value that is a string or [undefined]. *)
Definition strict_eq (v : option string) (s : string) : bool :=
  match v with
  | Some x => String.eqb x s
  | None => false
  end.

(** [array.slice(0, n)]. *)
Definition slice0 {A} (n : nat) (l : list A) : list A := take n l.

(** [if (c) array.push(x)]. *)
Definition push_if {A} (c : bool) (x : A) (l : list A) : list A :=
  if c then l ++ [x] else l.

Definition generateInsights (userData : UserData)
    (totalExpenses suggestedSavings : float) : list string :=
  let insights := [] in
  let expenseRatio := (totalExpenses / monthly_income userData * 100)%float in
  let insights :=
    if (80 <? expenseRatio)%float then
      insights ++ ["Your expenses are quite high relative to income. Consider reviewing variable expenses for savings opportunities."]
    else if (expenseRatio <? 50)%float then
      insights ++ ["Great job keeping expenses low! You have good potential for increased savings and investments."]
    else insights in
  let savingsRatio := (suggestedSavings / monthly_income userData * 100)%float in
  let insights :=
    if (savingsRatio <? 10)%float then
      insights ++ ["Try to save at least 10-15% of your income for financial security."]
    else if (20 <=? savingsRatio)%float then
      insights ++ ["Excellent savings rate! Consider diversifying into different investment options."]
    else insights in
  let insights :=
    if strict_eq (financial_priority userData) "emergency_fund" then
      insights ++ ["Focus on building an emergency fund covering 3-6 months of expenses before other investments."]
    else if strict_eq (financial_priority userData) "debt_payoff" then
      insights ++ ["Prioritize high-interest debt repayment to save on interest costs long-term."]
    else if strict_eq (financial_priority userData) "save_for_goal" then
      insights ++ ["Set up automatic transfers to a dedicated savings account for your specific goal."]
    else if strict_eq (financial_priority userData) "increase_investments" then
      insights ++ ["Consider systematic investment plans (SIPs) in mutual funds for long-term wealth building."]
    else insights in
  slice0 3 insights.

Section Goals.
Context (Number_toString : float → string).

Definition generateGoals (userData : UserData) (totalExpenses : float)
    : list string :=
  let goals := [] in
  let emergencyFundTarget := (totalExpenses * 6)%float in
  let goals :=
    push_if (existing_savings userData <? emergencyFundTarget)%float
      ("Build emergency fund of â‚¹" +:+ Number_toString emergencyFundTarget)
      goals in
  let currentSavingsRate :=
    ((monthly_income userData - totalExpenses) / monthly_income userData * 100)%float in
  let goals :=
    push_if (currentSavingsRate <? 25)%float
      "Increase monthly savings rate by 5%" goals in
  let goals :=
    if strict_eq (financial_priority userData) "debt_payoff" then
      goals ++ ["Create a debt repayment plan with timeline"]
    else if strict_eq (financial_priority userData) "save_for_goal" then
      goals ++ ["Set up dedicated savings account for your goal"]
    else if strict_eq (financial_priority userData) "increase_investments" then
      goals ++ ["Start systematic investment plan (SIP)"]
    else goals ++ ["Track expenses for better budgeting"] in
  slice0 3 goals.

End Goals.

(** The text [generateGoals] always pushes for a priority. *)
Definition priority_goal (priority : option string) : string :=
  if strict_eq priority "debt_payoff" then
    "Create a debt repayment plan with timeline"
  else if strict_eq priority "save_for_goal" then
    "Set up dedicated savings account for your goal"
  else if strict_eq priority "increase_investments" then
    "Start systematic investment plan (SIP)"
  else "Track expenses for better budgeting".

(** The text [generateInsights] pushes for a priority, if any. *)
Definition priority_insight (priority : option string) : option string :=
  if strict_eq priority "emergency_fund" then
    Some "Focus on building an emergency fund covering 3-6 months of expenses before other investments."
  else if strict_eq priority "debt_payoff" then
    Some "Prioritize high-interest debt repayment to save on interest costs long-term."
  else if strict_eq priority "save_for_goal" then
    Some "Set up automatic transfers to a dedicated savings account for your specific goal."
  else if strict_eq priority "increase_investments" then
    Some "Consider systematic investment plans (SIPs) in mutual funds for long-term wealth building."
  else None.

(** The form left blank: [parseInt(...) || 0] gives 0 for every amount. *)
Definition blank (priority : option string) : UserData :=
  {| monthly_income := 0;
     fixed_expenses := 0;
     variable_expenses := 0;
     existing_savings := 0;
     financial_priority := priority |}.

End Finance.

(** ** Further derived notions *)

Module Cases.
Import Api Guard HomePage.

(** An open prompt names the dashboard or one of the features. *)
Definition prompt_ok (h : HomeState) : Prop :=
  showLoginPrompt h = true →
  selectedFeature h ∈ "Dashboard" :: map title features.

(** The test of the second branch of the response interceptor. *)
Definition server_error (e : AxiosError) : bool :=
  match response e with
  | Some r => negb (status r =? 401)%Z && (500 <=? status r)%Z
  | None => false
  end.

(** The toasts and the location assignments the response interceptor
    makes for a failure of [GET /auth/me]. *)
Definition me_failure_toasts (resp : option ErrResponse) : list Toast :=
  match resp with
  | Some r =>
      if (status r =? 401)%Z
      then [toast_error "Session expired. Please login again."]
      else if (500 <=? status r)%Z
      then [toast_error "Server error. Please try again later."]
      else []
  | None => []
  end.

Definition me_failure_redirects (resp : option ErrResponse) : list string :=
  match resp with
  | Some r => if (status r =? 401)%Z then ["/"] else []
  | None => []
  end.

End Cases.

(** ** The mount effect run more than once

    The entry module renders the app inside [<React.StrictMode>]: a
    development build of React 18 runs the mount effect of
    [AuthProvider], which has no cleanup, twice in a row, a production
    build runs it once.  [runs] is that number; the runs all happen
    before any reply arrives. *)

Module Mounts.
Import Api UseAuth Guard.

Section Runs.
Context {User : Type} (JSON_stringify : option User → string) (runs : nat).

(** [initAuth] run [n] times in a row, each up to its [await]; the
    number of runs that now wait for a reply. *)
Fixpoint initAuth_begin_times (n : nat) (p : @Page User) : @Page User * nat :=
  match n with
  | O => (p, 0)
  | S n' =>
      let '(p1, waits) := initAuth_begin p in
      let '(p2, k) := initAuth_begin_times n' p1 in
      (p2, (if waits then 1 else 0) + k)
  end.

(** The replies to the validations arrive one after the other. *)
Definition settle_all (replies : list (Reply (option User))) (p : @Page User)
    : @Page User :=
  foldl (λ p r, initAuth_settle r p) p replies.

(** The mount effect from start to end, given the replies the
    validations would get, in the order of their arrival. *)
Definition startup (replies : list (Reply (option User)))
    (storage : gmap string string) : @Page User :=
  let '(p, k) := initAuth_begin_times runs (load storage) in
  settle_all (take k replies) p.

Record Config := {
  page : @Page User;
  (** the validations this page load has started *)
  me_started : nat;
  (** those of them that wait for their reply *)
  me_pending : nat;
  (** the [login] calls that wait for their reply *)
  login_pending : nat
}.

Definition start (storage : gmap string string) : Config :=
  let '(p, k) := initAuth_begin_times runs (load storage) in
  {| page := p; me_started := k; me_pending := k; login_pending := 0 |}.

(** One event, as in [EventLoop.step]. *)
Definition step (ev : @EventLoop.Event User) (c : Config) : option Config :=
  match ev with
  | EventLoop.MeReply r =>
      match me_pending c with
      | O => None
      | S n => Some {| page := initAuth_settle r (page c);
                       me_started := me_started c;
                       me_pending := n;
                       login_pending := login_pending c |}
      end
  | EventLoop.Submit =>
      if signIn_disabled (auth (page c)) then None
      else Some {| page := login_begin (page c);
                   me_started := me_started c;
                   me_pending := me_pending c;
                   login_pending := S (login_pending c) |}
  | EventLoop.LoginReply r =>
      match login_pending c with
      | O => None
      | S n => Some {| page := (login_settle JSON_stringify r (page c)).1;
                       me_started := me_started c;
                       me_pending := me_pending c;
                       login_pending := n |}
      end
  | EventLoop.Logout =>
      Some {| page := logout (page c);
              me_started := me_started c;
              me_pending := me_pending c;
              login_pending := login_pending c |}
  | EventLoop.CallFailed u resp =>
      Some {| page := on_browser
                        (λ b, (call_settle (D:=unit) u (Failed resp) b).1)
                        (page c);
              me_started := me_started c;
              me_pending := me_pending c;
              login_pending := login_pending c |}
  | EventLoop.PageLoad => Some (start (localStorage (browser (page c))))
  end.

Fixpoint run (evs : list (@EventLoop.Event User)) (c : Config) : option Config :=
  match evs with
  | [] => Some c
  | ev :: evs' =>
      match step ev c with
      | Some c' => run evs' c'
      | None => None
      end
  end.

Definition reachable (c : Config) : Prop :=
  ∃ storage evs, run evs (start storage) = Some c.

(** No reply to a validation has arrived yet: the page is loading and no
    login waits. *)
Definition before_first_reply (c : Config) : Prop :=
  me_pending c ≤ me_started c ≤ runs
  ∧ (me_pending c = me_started c → 0 < me_pending c →
     loading (auth (page c)) = true ∧ login_pending c = 0).

End Runs.

End Mounts.

(** * Properties *)

Import Api UseAuth Guard EventLoop Scenario.

(** ** The response interceptor *)

Lemma getToken_removeToken b : getToken (removeToken b) = None.
Proof. apply lookup_delete_eq. Qed.

Lemma session_expired_branch e b :
  session_expired e = true →
  responseRejected e b =
  toast (toast_error "Session expired. Please login again.")
    (assign_location "/" (removeToken b)).
Proof.
  unfold session_expired, responseRejected.
  destruct (response e) as [r|]; [|done].
  destruct (status r =? 401)%Z; [|done].
  simpl. by intros ->.
Qed.

Lemma session_expired_iff e :
  session_expired e = true ↔
  ∃ r, response e = Some r ∧ status r = 401%Z
       ∧ url_includes e "/auth/login" = false
       ∧ url_includes e "/agents/career" = false.
Proof.
  unfold session_expired. split.
  - destruct (response e) as [r|]; [|done].
    rewrite !andb_true_iff, !negb_true_iff, Z.eqb_eq.
    intros [[? ?] ?]. by exists r.
  - intros (r & -> & Hs & -> & ->). by rewrite Hs.
Qed.

(** C1 (as amended).  A 401 on a request whose URL contains neither
    ['/auth/login'] nor ['/agents/career'] makes the response interceptor
    remove the stored token, assign ['/'] to [window.location.href] (the
    plain entry path, with nothing added to it), show the one toast
    ['Session expired. Please login again.'] and reject with the error it
    was given.  The handler does not write the provider's [AuthState]. *)
Theorem session_expired_handling (e : AxiosError) (r : ErrResponse) (b : Browser) :
  response e = Some r →
  status r = 401%Z →
  url_includes e "/auth/login" = false →
  url_includes e "/agents/career" = false →
  getToken (responseRejected e b) = None
  ∧ location_href (responseRejected e b) = location_href b ++ ["/"]
  ∧ toasts (responseRejected e b)
    = toasts b ++ [toast_error "Session expired. Please login again."]
  ∧ sent (responseRejected e b) = sent b
  ∧ (∀ u, config_url e = Some u →
       api_settle (D:=unit) u (Failed (response e)) b
       = (responseRejected e b, Thrown (HttpError e)))
  ∧ (∀ User (p : @Page User),
       auth (on_browser (responseRejected e) p) = auth p).
Proof.
  intros Hr Hs Hl Hc.
  assert (He : session_expired e = true).
  { apply session_expired_iff. by exists r. }
  rewrite (session_expired_branch e b He).
  repeat split; try done.
  - apply getToken_removeToken.
  - intros u Hu. unfold api_settle. destruct e as [cu re]. simpl in *.
    subst cu. by rewrite <- (session_expired_branch _ b He).
Qed.

Lemma session_expired_handling_witness :
  getToken (responseRejected (failure "/data/progress" 401) signed_in) = None
  ∧ location_href (responseRejected (failure "/data/progress" 401) signed_in)
    = ["/"].
Proof.
  destruct (session_expired_handling (failure "/data/progress" 401)
              {| status := 401; detail := None |} signed_in)
    as (Ht & Hl & _); [reflexivity..|].
  split; [exact Ht | exact Hl].
Defined.

(** C1 (as stated) fails: the career endpoint is not the login endpoint,
    and a 401 on it clears nothing, redirects nowhere and shows no
    toast. *)
Lemma session_expired_not_for_career :
  url_includes (failure "/agents/career" 401) "/auth/login" = false
  ∧ getToken (responseRejected (failure "/agents/career" 401) signed_in)
    = Some "tok"
  ∧ location_href (responseRejected (failure "/agents/career" 401) signed_in) = []
  ∧ toasts (responseRejected (failure "/agents/career" 401) signed_in) = [].
Proof. by vm_compute. Qed.

(** *** Repeated failures *)

Lemma rejected_all_snoc es e b :
  rejected_all (es ++ [e]) b = responseRejected e (rejected_all es b).
Proof. unfold rejected_all. by rewrite foldl_app. Qed.

Lemma removeToken_twice b :
  localStorage (removeToken (removeToken b)) = localStorage (removeToken b).
Proof. simpl. apply delete_delete_eq. Qed.

(** C2 (as amended).  The interceptor keeps no record of having fired:
    each of [n] session-expiring failures assigns the location and shows
    the toast again, so [n] failures give [n] redirects and [n] toasts.
    Only the removal of the token is idempotent: after one or after many
    such failures [localStorage] is the old one without its token. *)
Theorem session_expired_every_time (es : list AxiosError) (b : Browser) :
  Forall (λ e, session_expired e = true) es →
  length (toasts (rejected_all es b)) = length (toasts b) + length es
  ∧ length (location_href (rejected_all es b))
    = length (location_href b) + length es
  ∧ (es ≠ [] →
     localStorage (rejected_all es b) = delete "token" (localStorage b)).
Proof.
  induction es as [|e es IH] using rev_ind.
  - intros _. simpl. repeat split; [lia | lia | done].
  - intros Hall. apply Forall_app in Hall as [Hes He].
    apply Forall_inv in He.
    destruct (IH Hes) as (IHt & IHl & IHs).
    rewrite rejected_all_snoc, (session_expired_branch _ _ He).
    simpl. rewrite !length_app. simpl.
    repeat split; [lia | lia |].
    intros _. destruct es as [|e0 es0].
    + done.
    + rewrite IHs by done. apply delete_delete_eq.
Qed.

Lemma session_expired_every_time_witness :
  length (toasts
            (rejected_all
               [failure "/data/progress" 401; failure "/goals/summary" 401]
               signed_in)) = 2.
Proof.
  destruct (session_expired_every_time
              [failure "/data/progress" 401; failure "/goals/summary" 401]
              signed_in) as (Ht & _).
  - repeat constructor.
  - exact Ht.
Defined.

(** C2 (as stated) fails: three requests that all get a 401 give three
    redirects and three toasts. *)
Lemma three_failures_three_toasts :
  Forall (λ e, session_expired e = true)
    [failure "/data/progress" 401; failure "/goals/summary" 401;
     failure "/user/stats" 401]
  ∧ location_href
      (rejected_all
         [failure "/data/progress" 401; failure "/goals/summary" 401;
          failure "/user/stats" 401] signed_in)
    = ["/"; "/"; "/"]
  ∧ toasts
      (rejected_all
         [failure "/data/progress" 401; failure "/goals/summary" 401;
          failure "/user/stats" 401] signed_in)
    = [toast_error "Session expired. Please login again.";
       toast_error "Session expired. Please login again.";
       toast_error "Session expired. Please login again."].
Proof. split; [repeat constructor | by vm_compute]. Qed.

(** C5.  With a token and a user record stored, a 401 on
    ['/data/progress'] leaves the user record in [localStorage] without
    its token. *)
Theorem interceptor_leaves_user_record :
  getItem "token" signed_in = Some "tok"
  ∧ getItem "user" signed_in = Some "{}"
  ∧ getItem "token" (responseRejected (failure "/data/progress" 401) signed_in)
    = None
  ∧ getItem "user" (responseRejected (failure "/data/progress" 401) signed_in)
    = Some "{}".
Proof. by vm_compute. Qed.

(** The sibling paths remove both values. *)
Lemma authAPI_logout_removes_both b :
  getItem "token" (authAPI_logout b) = None
  ∧ getItem "user" (authAPI_logout b) = None.
Proof.
  unfold authAPI_logout, removeToken, getItem, removeItem. simpl.
  split; [by rewrite lookup_delete_ne, lookup_delete_eq | apply lookup_delete_eq].
Qed.

(** C9 (as amended).  A failure with a status of 500 or more, or
    without any response, goes through the response interceptor without
    a change to [localStorage] or to the location, and the call is
    rejected with that same error; the provider's [AuthState] is not
    written.  The two cases differ: for the server's failure the
    interceptor shows the toast ['Server error. Please try again
    later.'], for the missing response it shows none, and the error
    handed on has a [response] only in the first case.  The exception is
    [authAPI.getCurrentUser]: on such a failure of [GET /auth/me] it
    removes the token and the user record and throws a new
    [Error('Invalid session')] in place of the error, the toasts and the
    location being those of the interceptor. *)
Theorem server_and_network_errors (u : string) (resp : option ErrResponse)
    (b : Browser) :
  let e := {| config_url := Some u; response := resp |} in
  (resp = None ∨ ∃ r, resp = Some r ∧ (500 ≤ status r)%Z) →
  call_settle (D:=unit) u (Failed resp) b
  = (responseRejected e b, Thrown (HttpError e))
  ∧ localStorage (responseRejected e b) = localStorage b
  ∧ location_href (responseRejected e b) = location_href b
  ∧ (∀ User (p : @Page User), auth (on_browser (responseRejected e) p) = auth p)
  ∧ toasts (responseRejected e b)
    = match resp with
      | Some _ => toasts b ++ [toast_error "Server error. Please try again later."]
      | None => toasts b
      end
  ∧ (∀ User,
       (authAPI_getCurrentUser_settle (User:=User) (Failed resp) b).2
       = Thrown (PlainError "Invalid session")
       ∧ localStorage (authAPI_getCurrentUser_settle (User:=User) (Failed resp) b).1
         = delete "user" (delete "token" (localStorage b))
       ∧ location_href (authAPI_getCurrentUser_settle (User:=User) (Failed resp) b).1
         = location_href b
       ∧ toasts (authAPI_getCurrentUser_settle (User:=User) (Failed resp) b).1
         = match resp with
           | Some _ =>
               toasts b ++ [toast_error "Server error. Please try again later."]
           | None => toasts b
           end).
Proof.
  intros e [-> | (r & -> & Hr)].
  - by repeat split.
  - unfold authAPI_getCurrentUser_settle, call_settle, api_settle,
      responseRejected. simpl.
    replace (status r =? 401)%Z with false by lia.
    replace (500 <=? status r)%Z with true by lia.
    by repeat split.
Qed.

Lemma server_and_network_errors_witness :
  toasts (responseRejected (failure "/data/progress" 503) signed_in)
  = [toast_error "Server error. Please try again later."]
  ∧ getToken (responseRejected (failure "/data/progress" 503) signed_in)
    = Some "tok".
Proof.
  destruct (server_and_network_errors "/data/progress"
              (Some {| status := 503; detail := None |}) signed_in)
    as (_ & Hs & _ & _ & Ht & _).
  - right. eexists. split; [reflexivity | simpl; lia].
  - split; [exact Ht |].
    unfold getToken, getItem.
    change (failure "/data/progress" 503)
      with {| config_url := Some "/data/progress";
              response := Some {| status := 503; detail := None |} |}.
    rewrite Hs. reflexivity.
Defined.

(** C9 (as stated) fails for [GET /auth/me]: with a token and a user
    record stored, a 503 or a missing response in reply to the
    validation leaves the store without both, and what is thrown is not
    the failure but [Error('Invalid session')]. *)
Lemma validation_failure_clears_store :
  getItem "token" signed_in = Some "tok"
  ∧ getItem "user" signed_in = Some "{}"
  ∧ authAPI_getCurrentUser_settle (User:=string)
      (Failed (Some {| status := 503; detail := None |})) signed_in
    = ({| localStorage := ∅;
          location_href := [];
          toasts := [toast_error "Server error. Please try again later."];
          sent := [] |},
       Thrown (PlainError "Invalid session"))
  ∧ authAPI_getCurrentUser_settle (User:=string) (Failed None) signed_in
    = ({| localStorage := ∅; location_href := []; toasts := []; sent := [] |},
       Thrown (PlainError "Invalid session")).
Proof. by vm_compute. Qed.

(** C10.  A 401 on a request whose URL contains ['/agents/career'] goes
    through the response interceptor without any effect: the token
    stays, the location is not assigned, no toast is shown, and the call
    is rejected with the same error. *)
Theorem career_401_exempt (u : string) (r : ErrResponse) (b : Browser) :
  status r = 401%Z →
  includes u "/agents/career" = true →
  responseRejected {| config_url := Some u; response := Some r |} b = b
  ∧ call_settle (D:=unit) u (Failed (Some r)) b
    = (b, Thrown (HttpError {| config_url := Some u; response := Some r |})).
Proof.
  intros Hs Hu.
  assert (H : responseRejected {| config_url := Some u; response := Some r |} b = b).
  { unfold responseRejected, url_includes. simpl.
    rewrite Hs, Hu. simpl. by rewrite andb_false_r. }
  split; [exact H |].
  unfold call_settle, api_settle. by rewrite H.
Qed.

Lemma career_401_exempt_witness :
  responseRejected (failure "/agents/career" 401) signed_in = signed_in.
Proof.
  apply (career_401_exempt "/agents/career"
           {| status := 401; detail := None |} signed_in); reflexivity.
Defined.

(** ** The provider *)

Section Provider.
Context {User : Type} (JSON_stringify : option User → string).
Implicit Types (p : @Page User) (b : Browser).

Lemma includes_login : includes "/auth/login" "/auth/login" = true.
Proof. reflexivity. Qed.

(** A failure on the login endpoint changes neither the storage nor the
    location. *)
Lemma login_failure_interceptor resp b :
  let e := {| config_url := Some "/auth/login"; response := resp |} in
  localStorage (responseRejected e b) = localStorage b
  ∧ location_href (responseRejected e b) = location_href b
  ∧ sent (responseRejected e b) = sent b.
Proof.
  unfold responseRejected, url_includes. simpl.
  destruct resp as [r|]; [|done]. simpl.
  destruct (status r =? 401)%Z; [done|].
  by destruct (500 <=? status r)%Z.
Qed.

(** The operations of [authAPI] keep the two stored values together. *)
Lemma authAPI_keeps_pair (lg : Reply (@LoginData User))
    (me : Reply (option User)) b :
  paired b →
  paired (authAPI_login_settle JSON_stringify lg b).1
  ∧ paired (authAPI_logout b)
  ∧ paired (authAPI_getCurrentUser_settle me b).1.
Proof.
  intros Hb. split; [|split].
  - unfold authAPI_login_settle, api_settle.
    destruct lg as [d | resp]; cbn [fst].
    + destruct (truthy (access_token d)); [|done].
      unfold paired, getItem. simpl.
      rewrite lookup_insert_eq, lookup_insert_ne, lookup_insert_eq by done.
      by split.
    + destruct (login_failure_interceptor resp b) as (Hs & _).
      unfold paired, getItem in *. by rewrite Hs.
  - destruct (authAPI_logout_removes_both b) as [Ht Hu].
    unfold paired. rewrite Ht, Hu. by split.
  - unfold authAPI_getCurrentUser_settle, api_settle.
    destruct me as [u | resp]; cbn [fst]; [done|].
    destruct (authAPI_logout_removes_both
                (responseRejected
                   {| config_url := Some "/auth/me"; response := resp |} b))
      as [Ht Hu].
    unfold paired, authAPI_logout in *. rewrite Ht, Hu. by split.
Qed.

(** A failed login, from the call to the throw: what is thrown and what
    is left as it was. *)
Lemma login_failed_frame (resp : option ErrResponse) p :
  let e := HttpError {| config_url := Some "/auth/login"; response := resp |} in
  let out := login_settle JSON_stringify (Failed resp) (login_begin p) in
  out.2 = Thrown e
  ∧ localStorage (browser out.1) = localStorage (browser p)
  ∧ location_href (browser out.1) = location_href (browser p)
  ∧ user (auth out.1) = user (auth p)
  ∧ isAuthenticated (auth out.1) = isAuthenticated (auth p)
  ∧ loading (auth out.1) = false.
Proof.
  intros e out. subst e out.
  unfold login_settle, authAPI_login_settle, api_settle.
  destruct (login_failure_interceptor resp
              (browser (login_begin p))) as (Hs & Hl & _).
  cbn [fst snd].
  case_bool_decide; cbn -[responseRejected login_begin];
    rewrite Hs, Hl; by repeat split.
Qed.

(** C6.  Whatever failure answers [POST /auth/login], [login] throws the
    axios error to the form that called it, which shows its message
    inline, and leaves [localStorage], the location, [user] and
    [isAuthenticated] as they were before the call; [loading] is back to
    [false].  So an empty store stays empty and an unauthenticated
    page stays unauthenticated. *)
Theorem login_rejected (resp : option ErrResponse) p (h : HomeState) :
  let e := HttpError {| config_url := Some "/auth/login"; response := resp |} in
  let out := login_settle JSON_stringify (Failed resp) (login_begin p) in
  out.2 = Thrown e
  ∧ loginError (onSubmit_catch e h) = errorMessage e
  ∧ localStorage (browser out.1) = localStorage (browser p)
  ∧ location_href (browser out.1) = location_href (browser p)
  ∧ user (auth out.1) = user (auth p)
  ∧ isAuthenticated (auth out.1) = isAuthenticated (auth p)
  ∧ loading (auth out.1) = false.
Proof.
  intros e out.
  destruct (login_failed_frame resp p) as (H1 & H2 & H3 & H4 & H5 & H6).
  by repeat split.
Qed.

(** [initAuth] on a freshly loaded page, case by case. *)
Lemma initAuth_on_load (storage : gmap string string) :
  match initAuth_begin (User:=User) (load storage) with
  | (p1, waits) =>
      waits = truthy (storage !! "token")
      ∧ localStorage (browser p1) = storage
      ∧ isAuthenticated (auth p1) = false
      ∧ user (auth p1) = None
      ∧ if waits then
          loading (auth p1) = true
          ∧ sent (browser p1)
            = [{| method := "GET"; url := "/auth/me";
                  authorization :=
                    Some ("Bearer " +:+ default EmptyString (storage !! "token")) |}]
          ∧ (∀ userData,
               auth (initAuth_settle (Fulfilled userData) p1)
               = {| user := userData; loading := false; isAuthenticated := true |}
               ∧ localStorage (browser (initAuth_settle (Fulfilled userData) p1))
                 = storage)
          ∧ (∀ resp,
               auth (initAuth_settle (Failed resp) p1)
               = {| user := None; loading := false; isAuthenticated := false |}
               ∧ getItem "token" (browser (initAuth_settle (Failed resp) p1)) = None
               ∧ getItem "user" (browser (initAuth_settle (Failed resp) p1)) = None)
        else
          loading (auth p1) = false ∧ sent (browser p1) = []
  end.
Proof.
  unfold initAuth_begin, authAPI_getCurrentUser_send, getToken, getItem. simpl.
  destruct (truthy (storage !! "token")) eqn:Ht; simpl.
  - unfold api_send, requestInterceptor, getToken, getItem. simpl. rewrite Ht.
    repeat split; try done.
    + by rewrite lookup_delete_ne, lookup_delete_eq.
    + apply lookup_delete_eq.
  - by repeat split.
Qed.

(** C7.  On a page load with a truthy token stored, [initAuth] sends
    [GET /auth/me] with the bearer token and waits, [loading] being
    [true]; a fulfilled reply makes the page authenticated with the user
    the server sent, any failure removes the token and the user record
    and leaves the page unauthenticated; in both cases [loading] ends
    [false].  Without a truthy token no request is sent and the page is
    unauthenticated at once. *)
Theorem startup_validation (storage : gmap string string) :
  match initAuth_begin (User:=User) (load storage) with
  | (p1, waits) =>
      waits = truthy (storage !! "token")
      ∧ localStorage (browser p1) = storage
      ∧ isAuthenticated (auth p1) = false
      ∧ user (auth p1) = None
      ∧ if waits then
          loading (auth p1) = true
          ∧ sent (browser p1)
            = [{| method := "GET"; url := "/auth/me";
                  authorization :=
                    Some ("Bearer " +:+ default EmptyString (storage !! "token")) |}]
          ∧ (∀ userData,
               auth (initAuth_settle (Fulfilled userData) p1)
               = {| user := userData; loading := false; isAuthenticated := true |}
               ∧ localStorage (browser (initAuth_settle (Fulfilled userData) p1))
                 = storage)
          ∧ (∀ resp,
               auth (initAuth_settle (Failed resp) p1)
               = {| user := None; loading := false; isAuthenticated := false |}
               ∧ getItem "token" (browser (initAuth_settle (Failed resp) p1)) = None
               ∧ getItem "user" (browser (initAuth_settle (Failed resp) p1)) = None)
        else
          loading (auth p1) = false ∧ sent (browser p1) = []
  end.
Proof. apply initAuth_on_load. Qed.

End Provider.

(** A login with a wrong password on a fresh page: the error reaches
    the form, no toast is shown for this message, nothing is stored and
    the page is not authenticated. *)
Example login_wrong_password :
  (login_settle stringify wrong_password (login_begin (load ∅))).2
  = Thrown (HttpError
      {| config_url := Some "/auth/login";
         response := Some {| status := 401; detail := Some "Incorrect password" |} |})
  ∧ localStorage
      (browser (login_settle stringify wrong_password (login_begin (load ∅))).1)
    = ∅
  ∧ toasts
      (browser (login_settle stringify wrong_password (login_begin (load ∅))).1)
    = []
  ∧ location_href
      (browser (login_settle stringify wrong_password (login_begin (load ∅))).1)
    = []
  ∧ isAuthenticated
      (auth (login_settle stringify wrong_password (login_begin (load ∅))).1)
    = false.
Proof. by vm_compute. Qed.

(** ** Authenticated and the stored token *)

Section Sequential.
Context {User : Type} (JSON_stringify : option User → string).
Implicit Types (p : @Page User) (o : @Op User).

Lemma startup_agrees reply storage : agrees (User:=User) (startup reply storage).
Proof.
  unfold startup.
  pose proof (initAuth_on_load (User:=User) storage) as H.
  destruct (initAuth_begin (load storage)) as [p1 waits].
  destruct H as (Hw & Hs & Ha & _ & H).
  destruct waits.
  - destruct H as (_ & _ & Hok & Hfail).
    destruct reply as [userData | resp].
    + destruct (Hok userData) as [Hauth Hst].
      unfold agrees, getToken, getItem. by rewrite Hauth, Hst, <- Hw.
    + destruct (Hfail resp) as (Hauth & Htok & _).
      unfold agrees, getToken. by rewrite Hauth, Htok.
  - destruct H as [Hl _].
    unfold agrees, getToken, getItem. by rewrite Ha, Hs, <- Hw.
Qed.

Lemma truthy_default t : truthy t = true → truthy (Some (default EmptyString t)) = true.
Proof. by destruct t. Qed.

Lemma run_op_agrees o p :
  carries_token o = true → agrees p → agrees (run_op JSON_stringify o p).
Proof.
  intros Hc [Ha Hl]. destruct o as [[d | resp] |].
  - simpl in Hc. unfold agrees, run_op, login_settle, authAPI_login_settle.
    simpl. rewrite Hc. simpl. split; [|done].
    unfold getToken, getItem. simpl.
    rewrite lookup_insert_ne by done. rewrite lookup_insert_eq.
    symmetry. by apply truthy_default.
  - destruct (login_failed_frame JSON_stringify resp p)
      as (_ & Hs & _ & _ & Hau & Hlo).
    unfold agrees, run_op, getToken, getItem.
    by rewrite Hs, Hau, Hlo.
  - unfold agrees, run_op, logout, getToken. simpl. split; [|done].
    symmetry. unfold getItem. simpl.
    by rewrite lookup_delete_ne, lookup_delete_eq.
Qed.

(** C3 (as amended).  When [initAuth] has run to its end on a freshly
    loaded page and the provider is then used by one caller at a time
    (logins, each carried to its reply, and logouts, where a fulfilled
    login carries an access token), [isAuthenticated] is [true] exactly
    when a truthy token is stored, and [loading] is [false]. *)
Theorem authenticated_iff_token_at_rest
    (storage : gmap string string) (reply : Reply (option User))
    (os : list (@Op User)) :
  Forall (λ o, carries_token o = true) os →
  isAuthenticated (auth (run_ops JSON_stringify os (startup reply storage)))
  = truthy (getToken (browser (run_ops JSON_stringify os (startup reply storage))))
  ∧ loading (auth (run_ops JSON_stringify os (startup reply storage))) = false.
Proof.
  intros Hos. change (agrees (run_ops JSON_stringify os (startup reply storage))).
  generalize (startup_agrees reply storage).
  generalize (startup reply storage) as p.
  induction Hos as [|o os Ho _ IH]; intros p Hp; [exact Hp|].
  apply IH. by apply run_op_agrees.
Qed.

(** C4 (as amended).  The provider keeps no generation counter.  With a
    login and the startup validation both waiting for their replies, each
    reply is applied when it arrives: whatever the order,
    [isAuthenticated] ends [true] when one of the two was fulfilled (or
    it was [true] before) and [loading] ends [false]; [user] is the one
    of the fulfilled reply that arrived last. *)
Theorem replies_applied_in_arrival_order
    (me : Reply (option User)) (lg : Reply (@LoginData User)) p :
  let login_first := initAuth_settle me (login_settle JSON_stringify lg p).1 in
  let login_last := (login_settle JSON_stringify lg (initAuth_settle me p)).1 in
  isAuthenticated (auth login_first)
  = fulfilled me || fulfilled lg || isAuthenticated (auth p)
  ∧ isAuthenticated (auth login_last)
    = fulfilled me || fulfilled lg || isAuthenticated (auth p)
  ∧ loading (auth login_first) = false
  ∧ loading (auth login_last) = false
  ∧ user (auth login_first)
    = match me, lg with
      | Fulfilled u, _ => u
      | Failed _, Fulfilled d => login_user d
      | Failed _, Failed _ => user (auth p)
      end
  ∧ user (auth login_last)
    = match lg, me with
      | Fulfilled d, _ => login_user d
      | Failed _, Fulfilled u => u
      | Failed _, Failed _ => user (auth p)
      end.
Proof.
  intros login_first login_last. subst login_first login_last.
  unfold initAuth_settle, login_settle, authAPI_getCurrentUser_settle,
    authAPI_login_settle, api_settle.
  destruct me as [u | r1], lg as [d | r2]; cbn -[responseRejected];
    try case_bool_decide; cbn -[responseRejected];
    repeat split; try done; by rewrite ?orb_true_r.
Qed.

End Sequential.

Lemma authenticated_iff_token_at_rest_witness :
  isAuthenticated
    (auth (run_ops stringify [DoLogin (good_login "ann"); DoLogout]
             (startup (Failed None) ∅))) = false.
Proof.
  destruct (authenticated_iff_token_at_rest stringify ∅ (Failed None)
              [DoLogin (good_login "ann"); DoLogout]) as [H _].
  - repeat constructor.
  - rewrite H. reflexivity.
Defined.

(** C3 (as stated) fails in both directions.  After a login and a new
    page load the token is stored while the page, which waits for the
    validation, is not authenticated; after a login and a 401 on a
    view's request the page is authenticated and no token is stored. *)
Lemma authenticated_without_token_and_back :
  (∃ c, run stringify login_then_reload (start ∅) = Some c
        ∧ isAuthenticated (auth (page c)) = false
        ∧ getToken (browser (page c)) = Some "tok")
  ∧ (∃ c, run stringify login_then_401 (start ∅) = Some c
          ∧ isAuthenticated (auth (page c)) = true
          ∧ loading (auth (page c)) = false
          ∧ getToken (browser (page c)) = None).
Proof.
  split; eexists; (split; [vm_compute; reflexivity | by vm_compute]).
Qed.

(** C4 (as stated) fails.  With a stale token's validation and a login
    both waiting, a fulfilled validation that arrives after the fulfilled
    login replaces the login's user, and a failed validation that
    arrives after the fulfilled login removes the token the login has
    just stored; in the other order the login's user and token stay. *)
Lemma late_validation_overrides_login :
  user (auth (initAuth_settle (Fulfilled (Some "bob"))
                (login_settle stringify (good_login "ann") both_in_flight).1))
  = Some "bob"
  ∧ user (auth (login_settle stringify (good_login "ann")
                  (initAuth_settle (Fulfilled (Some "bob")) both_in_flight)).1)
    = Some "ann"
  ∧ getToken (browser
       (initAuth_settle (Failed (Some {| status := 401; detail := None |}))
          (login_settle stringify (good_login "ann") both_in_flight).1))
    = None
  ∧ getToken (browser
       (login_settle stringify (good_login "ann")
          (initAuth_settle (Failed (Some {| status := 401; detail := None |}))
             both_in_flight)).1)
    = Some "tok".
Proof. by vm_compute. Qed.

(** ** The sign-in form and the validation *)

Section Gate.
Context {User : Type} (JSON_stringify : option User → string).
Implicit Types (c : @Config User).

Lemma start_validation_alone storage : validation_alone (User:=User) (start storage).
Proof.
  unfold start, validation_alone.
  pose proof (initAuth_on_load (User:=User) storage) as H.
  destruct (initAuth_begin (load storage)) as [p1 waits]. simpl.
  intros ->. by destruct H as (_ & _ & _ & _ & Hl & _).
Qed.

Lemma step_validation_alone ev c c' :
  step JSON_stringify ev c = Some c' →
  validation_alone c → validation_alone c'.
Proof.
  unfold validation_alone.
  destruct ev as [r | | r | | u resp |]; simpl.
  - destruct (me_pending c); [|done]. by intros [= <-].
  - unfold signIn_disabled.
    destruct (loading (auth (page c))) eqn:Hl; [done|].
    intros [= <-] Hc. simpl. intros Hm. destruct (Hc Hm). congruence.
  - destruct (login_pending c) eqn:Hn; [done|].
    intros [= <-] Hc. simpl. intros Hm. destruct (Hc Hm). congruence.
  - by intros [= <-].
  - by intros [= <-].
  - intros [= <-] _. apply start_validation_alone.
Qed.

(** With the sign-in buttons disabled while [loading], no login is
    waiting for its reply while the startup validation is. *)
Lemma login_never_meets_validation c :
  reachable JSON_stringify c → validation_alone c.
Proof.
  intros (storage & evs & Hrun).
  revert Hrun. generalize (start_validation_alone storage).
  generalize (start (User:=User) storage) as c0.
  induction evs as [|ev evs IH]; intros c0 H0; simpl.
  - by intros [= <-].
  - destruct (step JSON_stringify ev c0) as [c1|] eqn:Hstep; [|done].
    apply IH. by eapply step_validation_alone.
Qed.

End Gate.

(** ** The route guard and the login prompt *)

(** C8.  [ProtectedRoute] returns its children exactly when [loading] is
    [false] and [isAuthenticated] is [true], the spinner exactly when
    [loading] is [true], and otherwise a replacing navigation to ['/']
    whose state has [requiresLogin] and [fromProtectedRoute] set.  The
    effect of the entry view opens the login prompt exactly when both
    fields are set in [location.state]; shown for that navigation it
    opens the prompt and empties the history entry's state, so that the
    page loaded again on that entry gets no state and opens no
    prompt. *)
Theorem route_guard_and_prompt {User C} (a : @AuthState User) (children : C)
    (e : Entry) (st : LocationState) :
  (ProtectedRoute a children = Children children
   ↔ loading a = false ∧ isAuthenticated a = true)
  ∧ (ProtectedRoute a children = Spinner ↔ loading a = true)
  ∧ (ProtectedRoute a children
     = Navigate "/" {| requiresLogin := true; fromProtectedRoute := true |} true
     ↔ loading a = false ∧ isAuthenticated a = false)
  ∧ showLoginPrompt (Home_effect e mount).2
    = field requiresLogin (location_state e)
      && field fromProtectedRoute (location_state e)
  ∧ showLoginPrompt
      (Home_effect
         (follow {| requiresLogin := true; fromProtectedRoute := true |})
         mount).2 = true
  ∧ reload
      (Home_effect
         (follow {| requiresLogin := true; fromProtectedRoute := true |})
         mount).1 = plain_visit
  ∧ showLoginPrompt (Home_effect (reload (Home_effect (follow st) mount).1) mount).2
    = false
  ∧ showLoginPrompt (Home_effect plain_visit mount).2 = false.
Proof.
  split; [|split; [|split; [|split; [|split; [|split; [|split]]]]]].
  - unfold ProtectedRoute.
    destruct (loading a), (isAuthenticated a); split; try done; by intros [].
  - unfold ProtectedRoute.
    destruct (loading a), (isAuthenticated a); by split.
  - unfold ProtectedRoute.
    destruct (loading a), (isAuthenticated a); split; try done; by intros [].
  - unfold Home_effect. simpl.
    by destruct (field requiresLogin (location_state e)
                 && field fromProtectedRoute (location_state e)).
  - reflexivity.
  - reflexivity.
  - by destruct st as [[] []].
  - reflexivity.
Qed.

(** * Further properties *)

Import Registration HomePage Cases.

(** ** The interceptors *)

Lemma prefix_app (sub post : string) : String.prefix sub (sub +:+ post) = true.
Proof.
  induction sub as [|a sub IH]; simpl; [by destruct post|].
  destruct (Ascii.ascii_dec a a); [exact IH | done].
Qed.

Lemma includes_prefix (s sub : string) :
  String.prefix sub s = true → includes s sub = true.
Proof. intros H. destruct s; cbn [includes]; by rewrite H. Qed.

Lemma includes_app (pre sub post : string) :
  includes (pre +:+ sub +:+ post) sub = true.
Proof.
  induction pre as [|a pre IH].
  - change (includes (sub +:+ post) sub = true).
    apply includes_prefix, prefix_app.
  - change (includes (String a (pre +:+ sub +:+ post)) sub = true).
    cbn [includes]. rewrite IH. apply orb_true_r.
Qed.

(** X1.  The response interceptor leaves the browser exactly as it was
    unless the failure is a 401 on a non-exempt URL or has a status of
    500 or more: a failure without response, a status such as 400, 403,
    404 or 422, and a 401 on the login or career endpoint clear nothing,
    redirect nowhere and show no toast. *)
Theorem interceptor_silent_iff (e : AxiosError) (b : Browser) :
  responseRejected e b = b
  ↔ session_expired e = false ∧ server_error e = false.
Proof.
  unfold responseRejected, session_expired, server_error.
  destruct (response e) as [r|]; [|done].
  destruct (status r =? 401)%Z; simpl.
  - destruct (negb (url_includes e "/auth/login")
              && negb (url_includes e "/agents/career")); simpl.
    + split; [|by intros []].
      intros H. apply (f_equal (λ x, length (toasts x))) in H.
      simpl in H. rewrite length_app in H. simpl in H. lia.
    + done.
  - destruct (500 <=? status r)%Z; [|done].
    split; [|by intros []].
    intros H. apply (f_equal (λ x, length (toasts x))) in H.
    simpl in H. rewrite length_app in H. simpl in H. lia.
Qed.

(** What the response interceptor does to [localStorage] and to the
    requests. *)
Lemma responseRejected_frame (e : AxiosError) (b : Browser) (k : string) :
  getItem k (responseRejected e b)
  = (if session_expired e && bool_decide (k = "token") then None
     else getItem k b)
  ∧ sent (responseRejected e b) = sent b.
Proof.
  destruct (session_expired e) eqn:He.
  - rewrite (session_expired_branch e b He). simpl. split; [|done].
    unfold getItem. simpl. case_bool_decide as Hk.
    + subst k. apply lookup_delete_eq.
    + by rewrite lookup_delete_ne.
  - simpl. unfold responseRejected, session_expired in *.
    destruct (response e) as [r|]; [|done].
    destruct (status r =? 401)%Z; simpl in *.
    + by rewrite He.
    + by destruct (500 <=? status r)%Z.
Qed.

(** X2.  The response interceptor never writes to [localStorage] beyond
    removing the key ['token'], which it does exactly for a
    session-expiring failure; every other key, the cached user record
    included, reads as before, and it sends no request. *)
Theorem interceptor_storage_frame (e : AxiosError) (b : Browser) (k : string) :
  getItem k (responseRejected e b)
  = (if session_expired e && bool_decide (k = "token") then None
     else getItem k b)
  ∧ sent (responseRejected e b) = sent b.
Proof. apply responseRejected_frame. Qed.

(** X3.  The exemptions of the 401 branch are by substring: a 401 on any
    URL in which ['/auth/login'] or ['/agents/career'] occurs anywhere
    has no effect at all. *)
Theorem exemption_by_substring (pre post : string) (r : ErrResponse)
    (b : Browser) :
  status r = 401%Z →
  responseRejected
    {| config_url := Some (pre +:+ "/auth/login" +:+ post);
       response := Some r |} b = b
  ∧ responseRejected
      {| config_url := Some (pre +:+ "/agents/career" +:+ post);
         response := Some r |} b = b.
Proof.
  intros Hs. unfold responseRejected, url_includes. simpl.
  rewrite Hs. simpl. rewrite !includes_app. simpl.
  by rewrite andb_false_r.
Qed.

Lemma exemption_by_substring_witness :
  responseRejected (failure "/v2/auth/login-history" 401) signed_in = signed_in.
Proof.
  apply (exemption_by_substring "/v2" "-history"
           {| status := 401; detail := None |} signed_in).
  reflexivity.
Defined.

Section Bearer.
Context {User : Type} (JSON_stringify : option User → string).

(** X4.  The [Authorization] header follows the session: a request made
    after a login whose data carries a truthy access token bears that
    token, after a login without one it bears what it bore before, and
    after [authAPI.logout] or a failed validation it bears none. *)
Theorem bearer_follows_session (m u : string) (d : @LoginData User)
    (resp : option ErrResponse) (b : Browser) :
  authorization
    (requestInterceptor m u (authAPI_login_settle JSON_stringify (Fulfilled d) b).1)
  = (if truthy (access_token d)
     then Some ("Bearer " +:+ default EmptyString (access_token d))
     else authorization (requestInterceptor m u b))
  ∧ authorization (requestInterceptor m u (authAPI_logout b)) = None
  ∧ authorization
      (requestInterceptor m u
         (authAPI_getCurrentUser_settle (User:=User) (Failed resp) b).1) = None.
Proof.
  split; [|split].
  - unfold authAPI_login_settle, api_settle. cbn [fst].
    destruct (truthy (access_token d)) eqn:Ht; [|done].
    unfold requestInterceptor, getToken, getItem. simpl.
    rewrite lookup_insert_ne by done. rewrite lookup_insert_eq.
    by rewrite (truthy_default _ Ht).
  - unfold requestInterceptor.
    destruct (authAPI_logout_removes_both b) as [Ht _].
    unfold getToken. by rewrite Ht.
  - unfold authAPI_getCurrentUser_settle, api_settle. cbn [fst].
    unfold requestInterceptor.
    destruct (authAPI_logout_removes_both
                (responseRejected
                   {| config_url := Some "/auth/me"; response := resp |} b))
      as [Ht _].
    unfold getToken, authAPI_logout in *. by rewrite Ht.
Qed.

End Bearer.

(** ** The stored pair and the sign-in form *)

(** X5.  [authAPI.login], [authAPI.logout] and [authAPI.getCurrentUser]
    keep the token and the user record together: from a store that holds
    both or neither, each of them, whatever the reply, ends with a store
    that holds both or neither. *)
Theorem session_operations_keep_pair {User} (JSON_stringify : option User → string)
    (lg : Reply (@LoginData User)) (me : Reply (option User)) (b : Browser) :
  paired b →
  paired (authAPI_login_settle JSON_stringify lg b).1
  ∧ paired (authAPI_logout b)
  ∧ paired (authAPI_getCurrentUser_settle me b).1.
Proof. apply authAPI_keeps_pair. Qed.

Lemma session_operations_keep_pair_witness :
  paired signed_in
  ∧ paired (authAPI_login_settle stringify wrong_password signed_in).1.
Proof.
  assert (H : paired signed_in).
  { split; intros _; eexists; reflexivity. }
  split; [exact H |].
  apply (session_operations_keep_pair stringify wrong_password (Failed None)
           signed_in H).
Defined.

(** ** Page loads *)

Section Loads.
Context {User : Type} (JSON_stringify : option User → string).
Implicit Types (p : @Page User).

(** A page loaded without a truthy token is settled at once. *)
Lemma start_without_token (storage : gmap string string) :
  truthy (storage !! "token") = false →
  start (User:=User) storage
  = {| page := setLoading false (load storage);
       me_pending := false;
       login_pending := 0 |}.
Proof.
  intros Ht. unfold start, initAuth_begin, getToken, getItem. simpl.
  by rewrite Ht.
Qed.

(** X7.  [logout] leaves the page unauthenticated with no user and the
    store without token and user record, whatever the state it is called
    in; the page loaded next sends no validation request and is
    unauthenticated at once. *)
Theorem logout_then_reload p :
  auth (logout p)
  = {| user := None; loading := loading (auth p); isAuthenticated := false |}
  ∧ getItem "token" (browser (logout p)) = None
  ∧ getItem "user" (browser (logout p)) = None
  ∧ start (User:=User) (localStorage (browser (logout p)))
    = {| page := setLoading false (load (localStorage (browser (logout p))));
         me_pending := false;
         login_pending := 0 |}.
Proof.
  destruct (authAPI_logout_removes_both (browser p)) as [Ht Hu].
  repeat split; try done.
  apply start_without_token.
  change (localStorage (browser (logout p)) !! "token")
    with (getItem "token" (authAPI_logout (browser p))).
  by rewrite Ht.
Qed.

(** X9.  A login that stores a token survives a page load: the page
    loaded next sends [GET /auth/me] with that token as bearer and
    waits, and a fulfilled reply makes it authenticated with the user
    the server sent. *)
Theorem login_survives_reload (d : @LoginData User) (t : string) p
    (userData : option User) :
  access_token d = Some t →
  t ≠ EmptyString →
  let p1 := (login_settle JSON_stringify (Fulfilled d) (login_begin p)).1 in
  let c := start (User:=User) (localStorage (browser p1)) in
  getToken (browser p1) = Some t
  ∧ me_pending c = true
  ∧ sent (browser (page c))
    = [{| method := "GET"; url := "/auth/me";
          authorization := Some ("Bearer " +:+ t) |}]
  ∧ auth (initAuth_settle (Fulfilled userData) (page c))
    = {| user := userData; loading := false; isAuthenticated := true |}.
Proof.
  intros Hd Ht p1 c.
  assert (Htr : truthy (Some t) = true).
  { simpl. apply negb_true_iff. by apply String.eqb_neq. }
  assert (Hs : localStorage (browser p1) !! "token" = Some t).
  { subst p1. unfold login_settle, authAPI_login_settle, api_settle. simpl.
    rewrite Hd, Htr. simpl.
    rewrite lookup_insert_ne by done. by rewrite lookup_insert_eq. }
  split; [exact Hs|].
  subst c. unfold start.
  pose proof (initAuth_on_load (User:=User) (localStorage (browser p1))) as H.
  destruct (initAuth_begin (load (localStorage (browser p1)))) as [q waits].
  destruct H as (Hw & _ & _ & _ & H).
  rewrite Hs, Htr in Hw. subst waits.
  destruct H as (_ & Hsent & Hok & _). simpl.
  rewrite Hsent, Hs. simpl.
  repeat split; try done; apply Hok.
Qed.

(** X10.  The toasts of a failed login are the interceptor's server-error
    toast when the status is 500 or more, followed by the provider's
    toast of the message, which is left out exactly for the messages
    ['Email not found'] and ['Incorrect password']. *)
Theorem failed_login_toasts (resp : option ErrResponse) p :
  let e := {| config_url := Some "/auth/login"; response := resp |} in
  toasts (browser (login_settle JSON_stringify (Failed resp) (login_begin p)).1)
  = toasts (browser p)
    ++ (if server_error e
        then [toast_error "Server error. Please try again later."] else [])
    ++ (if bool_decide (errorMessage (HttpError e)
                        ∈ ["Email not found"; "Incorrect password"])
        then [] else [toast_error (errorMessage (HttpError e))]).
Proof.
  intros e. subst e.
  unfold login_settle, authAPI_login_settle, api_settle. cbn [fst snd].
  assert (Hi : toasts (responseRejected
                 {| config_url := Some "/auth/login"; response := resp |}
                 (browser (login_begin p)))
               = toasts (browser p)
                 ++ (if server_error
                          {| config_url := Some "/auth/login"; response := resp |}
                     then [toast_error "Server error. Please try again later."]
                     else [])).
  { unfold responseRejected, server_error, url_includes. simpl.
    destruct resp as [r|]; simpl; [|by rewrite app_nil_r].
    destruct (status r =? 401)%Z; simpl; [by rewrite app_nil_r|].
    destruct (500 <=? status r)%Z; simpl; [done | by rewrite app_nil_r]. }
  case_bool_decide; cbn -[responseRejected login_begin server_error];
    rewrite Hi; [by rewrite app_nil_r | by rewrite app_assoc].
Qed.

(** X11.  After a session-expiring failure the page that the redirect
    loads is logged out: it finds no token, sends no validation request
    and is unauthenticated at once. *)
Theorem session_expiry_then_reload (e : AxiosError) p :
  session_expired e = true →
  start (User:=User) (localStorage (responseRejected e (browser p)))
  = {| page :=
         setLoading false (load (delete "token" (localStorage (browser p))));
       me_pending := false;
       login_pending := 0 |}.
Proof.
  intros He. rewrite (session_expired_branch e _ He). simpl.
  apply start_without_token. by rewrite lookup_delete_eq.
Qed.

End Loads.

Lemma login_survives_reload_witness :
  getToken
    (browser (login_settle stringify (good_login "ann")
                (login_begin (load ∅))).1) = Some "tok".
Proof.
  apply (login_survives_reload stringify
           {| access_token := Some "tok"; login_user := Some "ann" |}
           "tok" (load ∅) None); [reflexivity | discriminate].
Defined.

Lemma session_expiry_then_reload_witness :
  me_pending
    (start (User:=string)
       (localStorage
          (responseRejected (failure "/data/progress" 401)
             (browser (login_settle stringify (good_login "ann")
                         (login_begin (load ∅))).1))))
  = false.
Proof.
  rewrite (session_expiry_then_reload (User:=string)
             (failure "/data/progress" 401)
             (login_settle stringify (good_login "ann")
                (login_begin (load ∅))).1);
    reflexivity.
Defined.

(** ** Registration *)

(** X12.  [register] of the provider never authenticates: whatever the
    reply, [user] and [isAuthenticated] are as before, [loading] ends
    [false] and the stored user record is untouched.  A fulfilled reply
    is returned to the caller with [localStorage] and the location
    unchanged and the one toast ['Registration successful! Please sign
    in.']; a failure is thrown to the caller after a toast of its
    [detail], or of ['Registration failed'] when it has none. *)
Theorem register_never_authenticates {User Created} (reply : Reply Created)
    (p : @Page User) :
  user (auth (register_settle reply (register_begin p)).1) = user (auth p)
  ∧ isAuthenticated (auth (register_settle reply (register_begin p)).1)
    = isAuthenticated (auth p)
  ∧ loading (auth (register_settle reply (register_begin p)).1) = false
  ∧ getItem "user" (browser (register_settle reply (register_begin p)).1)
    = getItem "user" (browser p)
  ∧ match reply with
    | Fulfilled data =>
        (register_settle reply (register_begin p)).2 = Returned data
        ∧ localStorage (browser (register_settle reply (register_begin p)).1)
          = localStorage (browser p)
        ∧ location_href (browser (register_settle reply (register_begin p)).1)
          = location_href (browser p)
        ∧ toasts (browser (register_settle reply (register_begin p)).1)
          = toasts (browser p)
            ++ [toast_success "Registration successful! Please sign in."]
    | Failed resp =>
        (register_settle reply (register_begin p)).2
        = Thrown (HttpError {| config_url := Some "/auth/register";
                               response := resp |})
        ∧ last (toasts (browser (register_settle reply (register_begin p)).1))
          = Some (toast_error
                    (detail_or "Registration failed"
                       (HttpError {| config_url := Some "/auth/register";
                                     response := resp |})))
    end.
Proof.
  unfold register_settle, authAPI_register_settle, api_settle.
  destruct reply as [data | resp].
  - cbn. by repeat split.
  - destruct (responseRejected_frame
                {| config_url := Some "/auth/register"; response := resp |}
                (browser (register_begin p)) "user") as [Hg _].
    rewrite andb_false_r in Hg.
    cbn -[responseRejected register_begin].
    repeat split; try done.
    apply last_snoc.
Qed.

(** X13.  The registration page sends nothing when the two passwords
    differ and shows ['Passwords do not match']; when they are equal it
    sends one [POST /auth/register].  A fulfilled reply sets [success]
    and asks for a navigation to ['/'] after 1500 ms, a failure leaves
    [success] as it was and asks for none; in both cases [loading] ends
    [false], the stored user record is as before, and a fulfilled reply
    leaves the whole of [localStorage] as before: registering stores no
    session. *)
Theorem register_page_submit {Created} (data : RegisterPage.FormData)
    (reply : Reply Created) (s : RegisterPage.RegisterState) (b : Browser) :
  match RegisterPage.onSubmit_begin data s b with
  | (s1, b1, waits) =>
      waits = String.eqb (RegisterPage.password data)
                (RegisterPage.confirmPassword data)
      ∧ if waits then
          sent b1 = sent b ++ [requestInterceptor "POST" "/auth/register" b]
          ∧ localStorage b1 = localStorage b
          ∧ RegisterPage.loading s1 = true
          ∧ RegisterPage.error s1 = EmptyString
          ∧ match RegisterPage.onSubmit_settle reply s1 b1 with
            | (s2, b2, nav) =>
                RegisterPage.loading s2 = false
                ∧ RegisterPage.success s2
                  = RegisterPage.success s || fulfilled reply
                ∧ nav = (if fulfilled reply then Some (1500%Z, "/") else None)
                ∧ getItem "user" b2 = getItem "user" b
                ∧ (if fulfilled reply
                   then localStorage b2 = localStorage b
                   else sent b2 = sent b1)
            end
        else
          b1 = b
          ∧ s1 = {| RegisterPage.loading := RegisterPage.loading s;
                    RegisterPage.success := RegisterPage.success s;
                    RegisterPage.error := "Passwords do not match" |}
  end.
Proof.
  unfold RegisterPage.onSubmit_begin.
  destruct (String.eqb (RegisterPage.password data)
              (RegisterPage.confirmPassword data)); cbn [negb]; [|done].
  split; [done|]. repeat split; try done.
  unfold RegisterPage.onSubmit_settle, authAPI_register_settle, api_settle.
  destruct reply as [d | resp]; cbn -[responseRejected].
  - repeat split; try done. by rewrite orb_true_r.
  - destruct (responseRejected_frame
                {| config_url := Some "/auth/register"; response := resp |}
                (authAPI_register_send b) "user") as [Hg Hs].
    repeat split; try done.
    + by rewrite orb_false_r.
    + rewrite Hg. by rewrite andb_false_r.
Qed.

(** X14.  A 401 in reply to a registration is taken for an expired
    session, unlike a 401 in reply to a login: the stored token is
    removed, ['/'] is assigned to the location and the session-expired
    toast is shown, while the page shows the failure's [detail] (or its
    default text) and [success] stays as it was. *)
Theorem register_401_expires_session (r : ErrResponse)
    (s : RegisterPage.RegisterState) (b : Browser) :
  status r = 401%Z →
  RegisterPage.onSubmit_settle (Created:=unit) (Failed (Some r)) s b
  = ({| RegisterPage.loading := false;
        RegisterPage.success := RegisterPage.success s;
        RegisterPage.error :=
          js_or (detail r) "Registration failed. Please try again." |},
     toast (toast_error "Session expired. Please login again.")
       (assign_location "/" (removeToken b)),
     None).
Proof.
  intros Hs.
  unfold RegisterPage.onSubmit_settle, authAPI_register_settle, api_settle,
    responseRejected, url_includes. simpl.
  by rewrite Hs.
Qed.

Lemma register_401_expires_session_witness :
  getToken
    (RegisterPage.onSubmit_settle (Created:=unit)
       (Failed (Some {| status := 401; detail := None |}))
       RegisterPage.mount signed_in).1.2 = None.
Proof.
  rewrite (register_401_expires_session {| status := 401; detail := None |}
             RegisterPage.mount signed_in); reflexivity.
Defined.

(** ** The entry view *)

Lemma mount_prompt_ok : prompt_ok Guard.mount.
Proof. by intros ?. Qed.

Lemma home_step_prompt_ok ev h h' :
  home_step ev h = Some h' → prompt_ok h → prompt_ok h'.
Proof.
  unfold prompt_ok.
  destruct ev as [e | authenticated i | authenticated | | | error]; simpl.
  - intros [= <-] Hh. unfold Home_effect. simpl.
    destruct (field requiresLogin (location_state e)
              && field fromProtectedRoute (location_state e)); simpl.
    + intros _. set_solver.
    + exact Hh.
  - destruct (features !! i) as [feature|] eqn:Hi; [|done].
    intros [= <-] Hh. unfold handleFeatureClick. simpl.
    destruct authenticated; simpl; [exact Hh|].
    intros _. destruct i as [|[|[|i]]]; simplify_eq/=; set_solver.
  - intros [= <-] Hh. unfold handleDashboardClick. simpl.
    destruct authenticated; simpl; [exact Hh|].
    intros _. set_solver.
  - by intros [= <-].
  - intros [= <-] Hh. exact Hh.
  - intros [= <-] Hh. exact Hh.
Qed.

Lemma home_run_prompt_ok evs : ∀ h h',
  home_run evs h = Some h' → prompt_ok h → prompt_ok h'.
Proof.
  induction evs as [|ev evs IH]; intros h h'; simpl.
  - by intros [= <-].
  - destruct (home_step ev h) as [h1|] eqn:Hstep; [|done].
    intros Hrun Hh. eapply IH; [exact Hrun|].
    by eapply home_step_prompt_ok.
Qed.

(** X15.  A successful login from the entry view always ends in a
    navigation.  Whatever was clicked, dismissed or failed since the
    view was mounted, the state [onSubmit] sees has its prompt either
    closed or opened for the dashboard or for one of the three features,
    so that [onSubmit] calls [navigate] with ['/dashboard'] or with the
    route of a feature. *)
Theorem successful_login_navigates {D} (evs : list HomeEvent)
    (seen : HomeState) (data : D) (h : HomeState) :
  home_run evs Guard.mount = Some seen →
  ∃ to, (onSubmit_settle seen (Returned data) h).2 = Some to
        ∧ to ∈ targets.
Proof.
  intros Hrun.
  pose proof (home_run_prompt_ok evs _ _ Hrun mount_prompt_ok) as Hok.
  unfold prompt_ok in Hok. unfold onSubmit_settle.
  destruct (showLoginPrompt seen).
  - specialize (Hok eq_refl).
    apply elem_of_cons in Hok as [-> | Hok].
    { exists "/dashboard". split; [reflexivity | unfold targets; simpl; set_solver]. }
    apply elem_of_cons in Hok as [-> | Hok].
    { exists "/agents". split; [reflexivity | unfold targets; simpl; set_solver]. }
    apply elem_of_cons in Hok as [-> | Hok].
    { exists "/milestones". split; [reflexivity | unfold targets; simpl; set_solver]. }
    apply elem_of_cons in Hok as [-> | Hok].
    { exists "/progress". split; [reflexivity | unfold targets; simpl; set_solver]. }
    by apply elem_of_nil in Hok.
  - exists "/dashboard". split; [reflexivity | unfold targets; simpl; set_solver].
Qed.

Lemma successful_login_navigates_witness :
  ∃ to,
    (onSubmit_settle (D:=unit)
       (handleFeatureClick (as_auth false)
          {| title := "Goal Acceleration"; route := "/milestones" |}
          Guard.mount).1
       (Returned tt) Guard.mount).2 = Some to
    ∧ to ∈ targets.
Proof.
  apply (successful_login_navigates [FeatureClick false 1]).
  reflexivity.
Defined.

(** X16.  The path of the blocked page is not kept.  For a page that is
    neither loading nor authenticated [ProtectedRoute] navigates to the
    entry point with a state that makes the entry view open its prompt
    for ['Dashboard'], the same prompt a click on a dashboard link
    opens; a login that succeeds from it closes the prompt and navigates
    to ['/dashboard'], whichever protected page had been asked for. *)
Theorem blocked_page_login_lands_on_dashboard {User C D}
    (a : @AuthState User) (children : C) (data : D) (h : HomeState) :
  loading a = false →
  isAuthenticated a = false →
  ∃ st,
    ProtectedRoute a children = Navigate "/" st true
    ∧ (Home_effect (follow st) Guard.mount).2 = open_prompt "Dashboard"
    ∧ (handleDashboardClick a h).1 = open_prompt "Dashboard"
    ∧ onSubmit_settle (open_prompt "Dashboard") (Returned data) h
      = (setShowLoginPrompt false h, Some "/dashboard").
Proof.
  intros Hl Ha.
  exists {| requiresLogin := true; fromProtectedRoute := true |}.
  unfold ProtectedRoute, handleDashboardClick. rewrite Hl, Ha.
  by repeat split.
Qed.

Lemma blocked_page_login_lands_on_dashboard_witness :
  ∃ st,
    ProtectedRoute (as_auth false) "Profile" = Navigate "/" st true
    ∧ (Home_effect (follow st) Guard.mount).2 = open_prompt "Dashboard"
    ∧ (handleDashboardClick (as_auth false) Guard.mount).1
      = open_prompt "Dashboard"
    ∧ onSubmit_settle (open_prompt "Dashboard") (Returned tt) Guard.mount
      = (setShowLoginPrompt false Guard.mount, Some "/dashboard").
Proof.
  apply (blocked_page_login_lands_on_dashboard (as_auth false) "Profile" tt
           Guard.mount); reflexivity.
Defined.

(** ** The finance plan texts *)

Section FinanceTexts.
Import PrimFloat Finance.
Context (Number_toString : float → string).

(** X17.  [generateGoals] returns one, two or three goals and
    [slice(0, 3)] never drops any: the last goal is always the one of
    the financial priority (['Track expenses for better budgeting'] for
    an unknown or missing priority), and any goal before it is the
    emergency-fund goal for six times the expenses or the savings-rate
    goal. *)
Theorem generateGoals_shape (userData : UserData) (totalExpenses : float) :
  1 ≤ length (generateGoals Number_toString userData totalExpenses) ≤ 3
  ∧ last (generateGoals Number_toString userData totalExpenses)
    = Some (priority_goal (financial_priority userData))
  ∧ ∀ g, g ∈ generateGoals Number_toString userData totalExpenses →
         g = priority_goal (financial_priority userData)
         ∨ g = "Increase monthly savings rate by 5%"
         ∨ g = "Build emergency fund of â‚¹"
               +:+ Number_toString (totalExpenses * 6)%float.
Proof.
  unfold generateGoals, priority_goal, push_if, slice0.
  destruct (existing_savings userData <? totalExpenses * 6)%float;
    destruct ((monthly_income userData - totalExpenses)
              / monthly_income userData * 100 <? 25)%float;
    destruct (strict_eq (financial_priority userData) "debt_payoff");
    destruct (strict_eq (financial_priority userData) "save_for_goal");
    destruct (strict_eq (financial_priority userData) "increase_investments");
    simpl; (split; [lia|]); (split; [done|]);
    intros g Hg;
    repeat (apply elem_of_cons in Hg as [Hg | Hg]; [subst g; auto |]);
    by apply elem_of_nil in Hg.
Qed.

(** X18.  [generateInsights] returns at most three insights.  For each
    of the four known priorities the last of them is the insight of that
    priority, so [slice(0, 3)] never drops it; for any other priority
    there are at most two. *)
Theorem generateInsights_shape (userData : UserData)
    (totalExpenses suggestedSavings : float) :
  length (generateInsights userData totalExpenses suggestedSavings) ≤ 3
  ∧ match priority_insight (financial_priority userData) with
    | Some text =>
        last (generateInsights userData totalExpenses suggestedSavings)
        = Some text
    | None =>
        length (generateInsights userData totalExpenses suggestedSavings) ≤ 2
    end.
Proof.
  unfold generateInsights, priority_insight, slice0.
  destruct (80 <? totalExpenses / monthly_income userData * 100)%float;
    destruct (totalExpenses / monthly_income userData * 100 <? 50)%float;
    destruct (suggestedSavings / monthly_income userData * 100 <? 10)%float;
    destruct (20 <=? suggestedSavings / monthly_income userData * 100)%float;
    destruct (strict_eq (financial_priority userData) "emergency_fund");
    destruct (strict_eq (financial_priority userData) "debt_payoff");
    destruct (strict_eq (financial_priority userData) "save_for_goal");
    destruct (strict_eq (financial_priority userData) "increase_investments");
    simpl; (split; [lia | done || lia]).
Qed.

(** X19.  For a form left blank, where every amount is 0, the ratios are
    not numbers and no comparison with them holds: [generateInsights]
    gives the insight of the priority alone, or nothing, and
    [generateGoals] gives the goal of the priority alone. *)
Theorem blank_form_texts (priority : option string) :
  generateInsights (blank priority) 0 0
  = match priority_insight priority with
    | Some text => [text]
    | None => []
    end
  ∧ generateGoals Number_toString (blank priority) 0
    = [priority_goal priority].
Proof.
  unfold generateInsights, generateGoals, priority_insight, priority_goal,
    push_if, slice0, blank. cbn [monthly_income existing_savings financial_priority].
  replace (80 <? 0 / 0 * 100)%float with false by reflexivity.
  replace (0 / 0 * 100 <? 50)%float with false by reflexivity.
  replace (0 / 0 * 100 <? 10)%float with false by reflexivity.
  replace (20 <=? 0 / 0 * 100)%float with false by reflexivity.
  replace (0 <? 0 * 6)%float with false by reflexivity.
  replace ((0 - 0) / 0 * 100 <? 25)%float with false by reflexivity.
  destruct (strict_eq priority "emergency_fund");
    destruct (strict_eq priority "debt_payoff");
    destruct (strict_eq priority "save_for_goal");
    destruct (strict_eq priority "increase_investments"); by simpl.
Qed.

End FinanceTexts.

(** ** What an event can do *)

Section Steps.
Context {User : Type} (JSON_stringify : option User → string).
Implicit Types (c : @Config User).

(** X20.  Only a fulfilled login writes a token.  After any event the
    stored token is the one stored before, or there is none, or the
    event is the fulfilled reply to a login and the token is the access
    token it carries. *)
Theorem token_written_only_by_login (ev : @Event User) c c' :
  step JSON_stringify ev c = Some c' →
  getToken (browser (page c')) = getToken (browser (page c))
  ∨ getToken (browser (page c')) = None
  ∨ ∃ d, ev = LoginReply (Fulfilled d)
         ∧ truthy (access_token d) = true
         ∧ getToken (browser (page c')) = access_token d.
Proof.
  destruct ev as [r | | r | | u resp |]; simpl.
  - destruct (me_pending c); [|done]. intros [= <-]. simpl.
    unfold initAuth_settle, authAPI_getCurrentUser_settle, api_settle.
    destruct r as [userData | resp]; simpl; [by left|].
    right. left. unfold getToken, getItem. simpl.
    by rewrite lookup_delete_ne, lookup_delete_eq.
  - destruct (signIn_disabled (auth (page c))); [done|].
    intros [= <-]. by left.
  - destruct (login_pending c); [done|]. intros [= <-]. simpl.
    destruct r as [d | resp].
    + unfold login_settle, authAPI_login_settle, api_settle. simpl.
      destruct (truthy (access_token d)) eqn:Ht; simpl; [|by left].
      right. right. exists d. repeat split; [done|].
      unfold getToken, getItem. simpl.
      rewrite lookup_insert_ne by done. rewrite lookup_insert_eq.
      destruct (access_token d); [done | discriminate].
    + left.
      destruct (login_failed_frame JSON_stringify resp (page c))
        as (_ & Hs & _).
      unfold login_settle, authAPI_login_settle, api_settle in *.
      destruct (login_failure_interceptor resp (browser (page c)))
        as (Hi & _).
      unfold getToken, getItem.
      case_bool_decide; cbn -[responseRejected]; by rewrite Hi.
  - intros [= <-]. right. left.
    apply (authAPI_logout_removes_both (browser (page c))).
  - intros [= <-]. simpl.
    destruct (responseRejected_frame
                {| config_url := Some u; response := resp |}
                (browser (page c)) "token") as [Hg _].
    unfold getToken. unfold call_settle, api_settle. cbn [fst].
    rewrite Hg.
    destruct (session_expired _); simpl; [by right; left | by left].
  - intros [= <-]. left. unfold start.
    pose proof (initAuth_on_load (User:=User)
                  (localStorage (browser (page c)))) as H.
    destruct (initAuth_begin (load (localStorage (browser (page c)))))
      as [q waits].
    destruct H as (_ & Hs & _). simpl.
    unfold getToken, getItem. by rewrite Hs.
Qed.

(** X21.  The page becomes authenticated only by a fulfilled reply from
    the server: if [isAuthenticated] is [true] after an event and was
    not before, the event is the fulfilled reply to the startup
    validation or to a login. *)
Theorem authenticated_only_by_reply (ev : @Event User) c c' :
  step JSON_stringify ev c = Some c' →
  isAuthenticated (auth (page c')) = true →
  isAuthenticated (auth (page c)) = true
  ∨ (∃ userData, ev = MeReply (Fulfilled userData))
  ∨ (∃ d, ev = LoginReply (Fulfilled d)).
Proof.
  destruct ev as [r | | r | | u resp |]; simpl.
  - destruct (me_pending c); [|done]. intros [= <-]. simpl.
    destruct r as [userData | resp]; [by right; left; eexists|].
    intros H. by left.
  - destruct (signIn_disabled (auth (page c))); [done|].
    intros [= <-]. by left.
  - destruct (login_pending c); [done|]. intros [= <-]. simpl.
    destruct r as [d | resp]; [by right; right; eexists|].
    destruct (login_failed_frame JSON_stringify resp (page c))
      as (_ & _ & _ & _ & Ha & _).
    unfold login_settle, authAPI_login_settle, api_settle in *.
    intros H. left. revert H.
    case_bool_decide; cbn -[responseRejected]; done.
  - by intros [= <-].
  - intros [= <-]. by left.
  - intros [= <-]. unfold start.
    pose proof (initAuth_on_load (User:=User)
                  (localStorage (browser (page c)))) as H.
    destruct (initAuth_begin (load (localStorage (browser (page c)))))
      as [q waits].
    destruct H as (_ & _ & Ha & _). simpl. by rewrite Ha.
Qed.

End Steps.

Lemma token_written_only_by_login_witness :
  ∃ c',
    step stringify (LoginReply (good_login "ann"))
      {| page := login_begin (load ∅); me_pending := false; login_pending := 1 |}
    = Some c'
    ∧ (getToken (browser (page c'))
       = getToken (browser (login_begin (User:=string) (load ∅)))
       ∨ getToken (browser (page c')) = None
       ∨ ∃ d, LoginReply (good_login "ann") = LoginReply (Fulfilled d)
              ∧ truthy (access_token d) = true
              ∧ getToken (browser (page c')) = access_token d).
Proof.
  eexists. split; [reflexivity|].
  apply (token_written_only_by_login stringify (LoginReply (good_login "ann"))
           {| page := login_begin (load ∅);
              me_pending := false; login_pending := 1 |}).
  reflexivity.
Defined.

Lemma authenticated_only_by_reply_witness :
  isAuthenticated (auth (load (User:=string) ∅)) = true
  ∨ (∃ userData : option string,
       LoginReply (good_login "ann") = MeReply (Fulfilled userData))
  ∨ (∃ d, LoginReply (good_login "ann") = LoginReply (Fulfilled d)).
Proof.
  apply (authenticated_only_by_reply stringify (LoginReply (good_login "ann"))
           {| page := login_begin (load ∅);
              me_pending := false; login_pending := 1 |}
           {| page := (login_settle stringify (good_login "ann")
                         (login_begin (load ∅))).1;
              me_pending := false; login_pending := 0 |});
    reflexivity.
Defined.

(** ** The mount effect run once or twice *)

Section MountRuns.
Context {User : Type} (JSON_stringify : option User → string) (runs : nat).
Implicit Types (p : @Page User) (c : @Mounts.Config User).

Lemma begin_times_token n : ∀ p,
  truthy (getToken (browser p)) = true →
  (Mounts.initAuth_begin_times n p).2 = n
  ∧ auth (Mounts.initAuth_begin_times n p).1 = auth p
  ∧ localStorage (browser (Mounts.initAuth_begin_times n p).1)
    = localStorage (browser p)
  ∧ toasts (browser (Mounts.initAuth_begin_times n p).1) = toasts (browser p)
  ∧ location_href (browser (Mounts.initAuth_begin_times n p).1)
    = location_href (browser p)
  ∧ length (sent (browser (Mounts.initAuth_begin_times n p).1))
    = length (sent (browser p)) + n.
Proof.
  induction n as [|n IH]; intros p Ht.
  - simpl. repeat split; try done; lia.
  - cbn [Mounts.initAuth_begin_times].
    assert (Hb : initAuth_begin p
                 = (on_browser (api_send "GET" "/auth/me") p, true)).
    { unfold initAuth_begin, authAPI_getCurrentUser_send. by rewrite Ht. }
    rewrite Hb.
    destruct (IH (on_browser (api_send "GET" "/auth/me") p) Ht)
      as (Hk & Ha & Hs & Hto & Hl & Hn).
    destruct (Mounts.initAuth_begin_times n
                (on_browser (api_send "GET" "/auth/me") p)) as [p2 k].
    simpl in *. subst k. repeat split; try done.
    rewrite Hn, length_app. simpl. lia.
Qed.

Lemma begin_times_idle n : ∀ p,
  truthy (getToken (browser p)) = false →
  (Mounts.initAuth_begin_times n p).2 = 0
  ∧ browser (Mounts.initAuth_begin_times n p).1 = browser p
  ∧ user (auth (Mounts.initAuth_begin_times n p).1) = user (auth p)
  ∧ isAuthenticated (auth (Mounts.initAuth_begin_times n p).1)
    = isAuthenticated (auth p)
  ∧ loading (auth (Mounts.initAuth_begin_times n p).1)
    = (if n is O then loading (auth p) else false).
Proof.
  induction n as [|n IH]; intros p Ht; [done|].
  cbn [Mounts.initAuth_begin_times].
  assert (Hb : initAuth_begin p = (setLoading false p, false)).
  { unfold initAuth_begin. by rewrite Ht. }
  rewrite Hb.
  destruct (IH (setLoading false p) Ht) as (Hk & Hbr & Hu & Ha & Hl).
  destruct (Mounts.initAuth_begin_times n (setLoading false p)) as [p2 k].
  simpl in *. subst k. repeat split; try done.
  rewrite Hl. by destruct n.
Qed.

Lemma start_before_first_reply (storage : gmap string string) :
  Mounts.before_first_reply (User:=User) runs (Mounts.start runs storage).
Proof.
  unfold Mounts.start, Mounts.before_first_reply.
  destruct (truthy (storage !! "token")) eqn:Ht.
  - destruct (begin_times_token runs (load storage) Ht) as (Hk & Ha & _).
    destruct (Mounts.initAuth_begin_times runs (load storage)) as [q k].
    simpl in *. subst k. rewrite Ha. split; [lia | done].
  - destruct (begin_times_idle runs (load storage) Ht) as (Hk & _).
    destruct (Mounts.initAuth_begin_times runs (load storage)) as [q k].
    simpl in *. subst k. split; lia.
Qed.

Lemma step_before_first_reply ev c c' :
  Mounts.step JSON_stringify runs ev c = Some c' →
  Mounts.before_first_reply runs c → Mounts.before_first_reply runs c'.
Proof.
  unfold Mounts.before_first_reply.
  destruct ev as [r | | r | | u resp |]; simpl.
  - destruct (Mounts.me_pending c) eqn:Hp; [done|].
    intros [= <-] [Hle _]. simpl. split; lia.
  - unfold signIn_disabled.
    destruct (loading (auth (Mounts.page c))) eqn:Hl; [done|].
    intros [= <-] [Hle Hc]. simpl. split; [done|].
    intros He Hpos. destruct (Hc He Hpos). congruence.
  - destruct (Mounts.login_pending c) eqn:Hn; [done|].
    intros [= <-] [Hle Hc]. simpl. split; [done|].
    intros He Hpos. destruct (Hc He Hpos). congruence.
  - by intros [= <-].
  - by intros [= <-].
  - intros [= <-] _. apply start_before_first_reply.
Qed.

(** X6.  The sign-in buttons being disabled while [loading] is [true],
    no login can be waiting for its reply before the first reply to a
    startup validation has arrived, whether the mount effect runs once or
    twice: in every state that [initAuth], the form's [login], [logout],
    failed requests of views and page loads can reach, at most [runs]
    validations were started, and while all of them still wait the page
    is loading and no login waits.  With one run that is for as long as
    the validation waits; with two runs the first reply sets [loading]
    to [false] while the second validation still waits. *)
Theorem no_login_before_first_validation_reply c :
  Mounts.reachable JSON_stringify runs c →
  Mounts.me_pending c ≤ Mounts.me_started c ≤ runs
  ∧ (Mounts.me_pending c = Mounts.me_started c →
     0 < Mounts.me_pending c →
     loading (auth (Mounts.page c)) = true ∧ Mounts.login_pending c = 0).
Proof.
  intros (storage & evs & Hrun).
  change (Mounts.before_first_reply runs c).
  revert Hrun. generalize (start_before_first_reply storage).
  generalize (Mounts.start (User:=User) runs storage) as c0.
  induction evs as [|ev evs IH]; intros c0 H0; simpl.
  - by intros [= <-].
  - destruct (Mounts.step JSON_stringify runs ev c0) as [c1|] eqn:Hstep; [|done].
    apply IH. by eapply step_before_first_reply.
Qed.

(** What one failed validation does. *)
Lemma initAuth_settle_failed_effects (resp : option ErrResponse) p :
  toasts (browser (initAuth_settle (Failed resp) p))
  = toasts (browser p) ++ me_failure_toasts resp
  ∧ location_href (browser (initAuth_settle (Failed resp) p))
    = location_href (browser p) ++ me_failure_redirects resp
  ∧ sent (browser (initAuth_settle (Failed resp) p)) = sent (browser p)
  ∧ getItem "token" (browser (initAuth_settle (Failed resp) p)) = None
  ∧ getItem "user" (browser (initAuth_settle (Failed resp) p)) = None
  ∧ auth (initAuth_settle (Failed resp) p)
    = {| user := user (auth p);
         loading := false;
         isAuthenticated := isAuthenticated (auth p) |}.
Proof.
  unfold initAuth_settle, authAPI_getCurrentUser_settle, api_settle,
    responseRejected, me_failure_toasts, me_failure_redirects, getItem.
  simpl.
  rewrite lookup_delete_eq, lookup_delete_ne, lookup_delete_eq by done.
  destruct resp as [r|]; simpl; [|by rewrite !app_nil_r].
  destruct (status r =? 401)%Z; simpl; [done|].
  destruct (500 <=? status r)%Z; simpl; by rewrite ?app_nil_r.
Qed.

Lemma settle_all_failed (resps : list (option ErrResponse)) : ∀ p,
  toasts (browser (Mounts.settle_all (Failed <$> resps) p))
  = toasts (browser p) ++ flat_map me_failure_toasts resps
  ∧ location_href (browser (Mounts.settle_all (Failed <$> resps) p))
    = location_href (browser p) ++ flat_map me_failure_redirects resps
  ∧ sent (browser (Mounts.settle_all (Failed <$> resps) p)) = sent (browser p)
  ∧ user (auth (Mounts.settle_all (Failed <$> resps) p)) = user (auth p)
  ∧ isAuthenticated (auth (Mounts.settle_all (Failed <$> resps) p))
    = isAuthenticated (auth p)
  ∧ (resps ≠ [] →
     loading (auth (Mounts.settle_all (Failed <$> resps) p)) = false
     ∧ getItem "token" (browser (Mounts.settle_all (Failed <$> resps) p)) = None
     ∧ getItem "user" (browser (Mounts.settle_all (Failed <$> resps) p)) = None).
Proof.
  induction resps as [|resp resps IH] using rev_ind; intros p.
  - simpl. rewrite !app_nil_r. by repeat split.
  - unfold Mounts.settle_all in *. rewrite fmap_app, foldl_app.
    destruct (IH p) as (Ht & Hl & Hs & Hu & Ha & _).
    set (q := foldl (λ p r, initAuth_settle r p) p (Failed <$> resps)) in *.
    change (foldl (λ p r, initAuth_settle r p) q (Failed <$> [resp]))
      with (initAuth_settle (Failed resp) q).
    destruct (initAuth_settle_failed_effects resp q)
      as (Ht' & Hl' & Hs' & Htok & Husr & Hau).
    rewrite !flat_map_app. cbn [flat_map]. rewrite !app_nil_r.
    rewrite Ht', Hl', Hs', Hau, Ht, Hl, Hs.
    cbn [user isAuthenticated loading].
    rewrite !app_assoc. by repeat split.
Qed.

(** X8.  Failed startup validations end the matter, whether the mount
    effect runs once or twice.  With a truthy token stored, each of the
    [runs] runs sends one request; when all of them fail, the toasts and
    the assignments of the location are those of the response
    interceptor for each failure in turn (a 401 assigns ['/'] and shows
    the session-expired toast, a status of 500 or more shows the
    server-error toast, anything else is silent), the page is
    unauthenticated with [loading] [false] and the store holds neither
    token nor user record; the page loaded next sends no request,
    however often its effect runs, so the redirect cannot repeat. *)
Theorem failed_validations_end (storage : gmap string string)
    (resps : list (option ErrResponse)) (again : nat) :
  truthy (storage !! "token") = true →
  length resps = runs →
  0 < runs →
  length (sent (browser (Mounts.startup (User:=User) runs (Failed <$> resps) storage)))
  = runs
  ∧ toasts (browser (Mounts.startup (User:=User) runs (Failed <$> resps) storage))
    = flat_map me_failure_toasts resps
  ∧ location_href
      (browser (Mounts.startup (User:=User) runs (Failed <$> resps) storage))
    = flat_map me_failure_redirects resps
  ∧ auth (Mounts.startup (User:=User) runs (Failed <$> resps) storage)
    = {| user := None; loading := false; isAuthenticated := false |}
  ∧ getItem "token"
      (browser (Mounts.startup (User:=User) runs (Failed <$> resps) storage))
    = None
  ∧ getItem "user"
      (browser (Mounts.startup (User:=User) runs (Failed <$> resps) storage))
    = None
  ∧ (Mounts.initAuth_begin_times again
       (load (User:=User)
          (localStorage
             (browser (Mounts.startup (User:=User) runs (Failed <$> resps)
                         storage))))).2 = 0
  ∧ sent (browser
            (Mounts.initAuth_begin_times again
               (load (User:=User)
                  (localStorage
                     (browser (Mounts.startup (User:=User) runs
                                 (Failed <$> resps) storage))))).1) = [].
Proof.
  intros Ht Hlen Hpos.
  assert (Hne : resps ≠ []) by (intros ->; simpl in Hlen; lia).
  unfold Mounts.startup.
  destruct (begin_times_token runs (load storage) Ht)
    as (Hk & Ha & Hs & Hto & Hl & Hn).
  destruct (Mounts.initAuth_begin_times runs (load storage)) as [q k].
  simpl in Hk, Ha, Hs, Hto, Hl, Hn. subst k.
  rewrite take_ge by (rewrite length_fmap; lia).
  destruct (settle_all_failed resps q) as (Ht' & Hl' & Hs' & Hu & Hau & Hlast).
  destruct (Hlast Hne) as (Hlo & Htok & Husr).
  assert (Hidle : truthy (getToken (browser (load (User:=User)
            (localStorage (browser (Mounts.settle_all (Failed <$> resps) q))))))
          = false).
  { unfold getToken, getItem in *. simpl. by rewrite Htok. }
  destruct (begin_times_idle again _ Hidle) as (Hz & Hbr & _).
  rewrite Hz, Hbr.
  split; [by rewrite Hs', Hn|].
  split; [by rewrite Ht', Hto|].
  split; [by rewrite Hl', Hl|].
  split; [|done].
  destruct (auth (Mounts.settle_all (Failed <$> resps) q)) as [u l a] eqn:E.
  simpl in *. rewrite Ha in Hu, Hau. simpl in Hu, Hau. by subst.
Qed.

End MountRuns.

Lemma no_login_before_first_validation_reply_witness :
  ∃ c,
    Mounts.run stringify 2
      [CallFailed "/goals/summary" (Some {| status := 503; detail := None |});
       Logout]
      (Mounts.start 2 {[ "token" := "tok" ]}) = Some c
    ∧ Mounts.me_pending c = 2
    ∧ loading (auth (Mounts.page c)) = true
    ∧ Mounts.login_pending c = 0.
Proof.
  eexists. split; [reflexivity|]. split; [reflexivity|].
  eapply (no_login_before_first_validation_reply stringify 2).
  - exists {[ "token" := "tok" ]},
      [CallFailed "/goals/summary" (Some {| status := 503; detail := None |});
       Logout].
    reflexivity.
  - reflexivity.
  - vm_compute. lia.
Defined.

(** With two runs the form is enabled after the first reply, and a login
    then waits together with the second validation. *)
Example login_meets_second_validation :
  ∃ c,
    Mounts.run stringify 2 [MeReply (Fulfilled (Some "ann")); Submit]
      (Mounts.start 2 {[ "token" := "tok" ]}) = Some c
    ∧ Mounts.me_pending c = 1
    ∧ Mounts.login_pending c = 1.
Proof. eexists. split; [reflexivity|]. by split. Qed.

Lemma failed_validations_end_witness :
  location_href
    (browser
       (Mounts.startup (User:=string) 2
          (Failed <$> [Some {| status := 401; detail := None |};
                       Some {| status := 401; detail := None |}])
          {[ "token" := "old" ]})) = ["/"; "/"].
Proof.
  destruct (failed_validations_end (User:=string) 2 {[ "token" := "old" ]}
              [Some {| status := 401; detail := None |};
               Some {| status := 401; detail := None |}] 2)
    as (_ & _ & H & _); [reflexivity | reflexivity | lia |].
  exact H.
Defined.
